(** * ESPMole MQTT transport: message routing and lifecycle

    A shallow embedding of [src/MqttTransport.cpp] (class
    [espmole::MqttTransport]) together with the properties of its topic
    namespace, its inbound message routing, its reconnect timer and its
    outbound operations.

    Conventions of the embedding.
    - A [const char*] is a [string]: the bytes stored from the pointer on.
      The C library functions read it up to the first NUL, so [c_str s] is
      the C string it denotes; a nullable pointer is an [option string].
    - A [(const uint8_t*, size_t)] pair stays a pair: the bytes pointed to and
      the length passed along with them.
    - [uint32_t] values are [Z] with the wrap-around written out.
    - The MQTT clients, the dispatcher, the clock and the user callback are
      external.  Every call made on them is recorded, in program order, as an
      [Event]; what they answer is read from an environment [Env]. *)

From Stdlib Require Import ZArith List String Ascii Bool Lia.
From Stdlib Require Import Strings.Byte.
Import ListNotations.

Local Open Scope string_scope.

(** ** The C string functions used by the transport *)

Module Libc.

Definition NUL : ascii := Ascii.zero.

Definition code (c : ascii) : Z := Z.of_N (N_of_ascii c).

(** The C string stored in [s]: everything before the first NUL. *)
Fixpoint c_str (s : string) : string :=
  match s with
  | EmptyString => EmptyString
  | String c r => if Ascii.eqb c NUL then EmptyString else String c (c_str r)
  end.

Definition strlen (s : string) : nat := String.length (c_str s).

(** [s[i]], where the byte after the stored characters is the terminator. *)
Definition char_at (s : string) (i : nat) : ascii :=
  match String.get i s with
  | Some c => c
  | None => NUL
  end.

(** [strcmp]: the difference of the first pair of bytes that differ, 0 when
    both strings end together. *)
Fixpoint strcmp (s1 s2 : string) : Z :=
  match s1, s2 with
  | EmptyString, EmptyString => 0
  | EmptyString, String c2 _ => (0 - code c2)%Z
  | String c1 _, EmptyString => code c1
  | String c1 r1, String c2 r2 =>
      if Ascii.eqb c1 c2
      then (if Ascii.eqb c1 NUL then 0%Z else strcmp r1 r2)
      else (code c1 - code c2)%Z
  end.

(** [strncmp]: as [strcmp], over at most [n] bytes. *)
Fixpoint strncmp (s1 s2 : string) (n : nat) {struct n} : Z :=
  match n with
  | O => 0
  | S k =>
      match s1, s2 with
      | EmptyString, EmptyString => 0
      | EmptyString, String c2 _ => (0 - code c2)%Z
      | String c1 _, EmptyString => code c1
      | String c1 r1, String c2 r2 =>
          if Ascii.eqb c1 c2
          then (if Ascii.eqb c1 NUL then 0%Z else strncmp r1 r2 k)
          else (code c1 - code c2)%Z
      end
  end.

(** The first [n] characters of [s] (all of it when it is shorter). *)
Fixpoint take (n : nat) (s : string) : string :=
  match n, s with
  | S k, String c r => String c (take k r)
  | _, _ => EmptyString
  end.

(** [strncpy(dst, src, n); dst[n] = 0] into a buffer of [n + 1] bytes that
    is read back as a C string: the first [n] characters of [src]. *)
Definition strncpy_terminated (src : string) (n : nat) : string :=
  take n (c_str src).

(** What [snprintf(buf, size, ...)] leaves in [buf] when the formatted
    output is [out]: at most [size - 1] characters, then the terminator. *)
Definition snprintf (size : nat) (out : string) : string :=
  take (size - 1) out.

(** One byte printed with [%02X]. *)
Definition hex_digit (n : N) : ascii :=
  if (n <? 10)%N then ascii_of_N (48 + n) else ascii_of_N (55 + n).

Definition fmt_02X (b : byte) : string :=
  let n := Byte.to_N b in
  String (hex_digit (n / 16)) (String (hex_digit (n mod 16)) EmptyString).

End Libc.
Import Libc.

(** ** Data model ([MqttTransport.h]) *)

(** Objects that the transport only holds pointers to are named by an
    identity; a null pointer is [None]. *)
Definition AsyncMqttClient : Type := nat.
Definition PubSubClient : Type := nat.
Definition Dispatcher : Type := nat.
Definition UserMessageCallback : Type := nat.

Definition PeerHandle : Type := Z.
Definition PEER_MQTT : PeerHandle := 0xFFFF0001%Z.

Definition TOPIC_MAX_LEN : nat := 80.
Definition DEVICE_ID_MAX_LEN : nat := 32.
Definition RESPONSE_BUFFER_SIZE : nat := 256.

Definition UINT32_MODULUS : Z := (2 ^ 32)%Z.

Record MqttConfig : Type := mkMqttConfig {
  broker : option string;
  port : Z;
  username : option string;
  password : option string;
  clientId : option string;
  baseTopic : option string;
  deviceId : option string;
  enableStatus : bool;
  birthPayload : string;
  lwtPayload : option string;
  retainStatus : bool;
  reconnectInterval : Z;
  qos : Z
}.

(** The default member initialisers of [struct MqttConfig]. *)
Definition default_MqttConfig : MqttConfig :=
  {| broker := None;
     port := 1883;
     username := None;
     password := None;
     clientId := None;
     baseTopic := Some "espmole";
     deviceId := None;
     enableStatus := true;
     birthPayload := "online";
     lwtPayload := Some "offline";
     retainStatus := true;
     reconnectInterval := 5000;
     qos := 0 |}.

(** The data members of [class MqttTransport]. *)
Record MqttTransport : Type := mkMqttTransport {
  dispatcher_ : option Dispatcher;
  config_ : MqttConfig;
  standaloneMode_ : bool;
  cmdTopic_ : string;
  respTopic_ : string;
  statusTopic_ : string;
  eventTopic_ : string;
  deviceId_ : string;
  asyncClient_ : option AsyncMqttClient;
  pubSubClient_ : option PubSubClient;
  ownsClient_ : bool;
  userCallback_ : option UserMessageCallback;
  wasConnected_ : bool;
  lastReconnectAttempt_ : Z
}.

(** Calls made on the collaborators, in the order the code makes them. *)
Inductive Event : Type :=
| AsyncNew (c : AsyncMqttClient)
| AsyncDelete (c : AsyncMqttClient)
| AsyncSetServer (c : AsyncMqttClient) (host : string) (port : Z)
| AsyncSetCredentials (c : AsyncMqttClient) (user : string) (pass : option string)
| AsyncSetClientId (c : AsyncMqttClient) (id : string)
| AsyncSetWill (c : AsyncMqttClient) (topic : string) (qos : Z) (retain : bool)
    (payload : option string)
| AsyncOnConnect (c : AsyncMqttClient)
| AsyncOnDisconnect (c : AsyncMqttClient)
| AsyncOnMessage (c : AsyncMqttClient)
| AsyncConnect (c : AsyncMqttClient)
| AsyncDisconnect (c : AsyncMqttClient)
| AsyncSubscribe (c : AsyncMqttClient) (topic : string) (qos : Z)
| AsyncPublish (c : AsyncMqttClient) (topic : string) (qos : Z) (retain : bool)
    (payload : list byte) (len : nat)
| PubSubSubscribe (c : PubSubClient) (topic : string)
| PubSubPublish (c : PubSubClient) (topic : string) (payload : list byte)
    (len : nat) (retain : bool)
| DispatcherIngest (d : Dispatcher) (peer : PeerHandle) (payload : list byte)
    (len : nat) (capacity : nat)
| UserCallback (cb : UserMessageCallback) (topic : string) (payload : list byte)
    (len : nat).

(** What the outside world answers during one call into the transport. *)
Record Env : Type := mkEnv {
  (** milliseconds since boot; [millis()] returns it as a [uint32_t] *)
  clock : Z;
  (** the six bytes written by [WiFi.macAddress] *)
  macAddress : list byte;
  (** the object returned by [new AsyncMqttClient()] *)
  new_AsyncMqttClient : AsyncMqttClient;
  async_connected : AsyncMqttClient -> bool;
  pubsub_connected : PubSubClient -> bool;
  pubsub_publish : PubSubClient -> string -> list byte -> nat -> bool -> bool;
  pubsub_subscribe : PubSubClient -> string -> bool;
  (** [Dispatcher::ingest]: the response buffer after the call and the
      response length it returns *)
  ingest : Dispatcher -> PeerHandle -> list byte -> nat -> nat -> list byte * nat
}.

Definition millis (e : Env) : Z := (clock e mod UINT32_MODULUS)%Z.

(** ** A state monad that logs the external calls *)

Definition M (A : Type) : Type := MqttTransport -> A * MqttTransport * list Event.

Definition ret {A : Type} (a : A) : M A := fun this => (a, this, []).

Definition bind {A B : Type} (m : M A) (k : A -> M B) : M B :=
  fun this =>
    let '(a, this1, t1) := m this in
    let '(b, this2, t2) := k a this1 in
    (b, this2, (t1 ++ t2)%list).

Definition get : M MqttTransport := fun this => (this, this, []).
Definition modify (f : MqttTransport -> MqttTransport) : M unit :=
  fun this => (tt, f this, []).
Definition emit (ev : Event) : M unit := fun this => (tt, this, [ev]).

Definition result {A : Type} (r : A * MqttTransport * list Event) : A := fst (fst r).
Definition state_of {A : Type} (r : A * MqttTransport * list Event) : MqttTransport :=
  snd (fst r).
Definition trace {A : Type} (r : A * MqttTransport * list Event) : list Event := snd r.

Declare Scope transport_scope.
Delimit Scope transport_scope with transport.
Notation "x <- c1 ;; c2" := (bind c1 (fun x => c2))
  (at level 61, c1 at next level, right associativity) : transport_scope.
Notation "c1 ;; c2" := (bind c1 (fun _ => c2))
  (at level 61, right associativity) : transport_scope.
Local Open Scope transport_scope.

(** Assignments to data members. *)
Definition set_standaloneMode (b : bool) (t : MqttTransport) : MqttTransport :=
  mkMqttTransport (dispatcher_ t) (config_ t) b (cmdTopic_ t) (respTopic_ t)
    (statusTopic_ t) (eventTopic_ t) (deviceId_ t) (asyncClient_ t) (pubSubClient_ t)
    (ownsClient_ t) (userCallback_ t) (wasConnected_ t) (lastReconnectAttempt_ t).

Definition set_cmdTopic (s : string) (t : MqttTransport) : MqttTransport :=
  mkMqttTransport (dispatcher_ t) (config_ t) (standaloneMode_ t) s (respTopic_ t)
    (statusTopic_ t) (eventTopic_ t) (deviceId_ t) (asyncClient_ t)
    (pubSubClient_ t) (ownsClient_ t) (userCallback_ t) (wasConnected_ t)
    (lastReconnectAttempt_ t).

Definition set_respTopic (s : string) (t : MqttTransport) : MqttTransport :=
  mkMqttTransport (dispatcher_ t) (config_ t) (standaloneMode_ t) (cmdTopic_ t) s
    (statusTopic_ t) (eventTopic_ t) (deviceId_ t) (asyncClient_ t)
    (pubSubClient_ t) (ownsClient_ t) (userCallback_ t) (wasConnected_ t)
    (lastReconnectAttempt_ t).

Definition set_statusTopic (s : string) (t : MqttTransport) : MqttTransport :=
  mkMqttTransport (dispatcher_ t) (config_ t) (standaloneMode_ t) (cmdTopic_ t) (respTopic_ t)
    s (eventTopic_ t) (deviceId_ t) (asyncClient_ t)
    (pubSubClient_ t) (ownsClient_ t) (userCallback_ t) (wasConnected_ t)
    (lastReconnectAttempt_ t).

Definition set_eventTopic (s : string) (t : MqttTransport) : MqttTransport :=
  mkMqttTransport (dispatcher_ t) (config_ t) (standaloneMode_ t) (cmdTopic_ t) (respTopic_ t)
    (statusTopic_ t) s (deviceId_ t) (asyncClient_ t)
    (pubSubClient_ t) (ownsClient_ t) (userCallback_ t) (wasConnected_ t)
    (lastReconnectAttempt_ t).

Definition set_deviceId (id : string) (t : MqttTransport) : MqttTransport :=
  mkMqttTransport (dispatcher_ t) (config_ t) (standaloneMode_ t) (cmdTopic_ t)
    (respTopic_ t) (statusTopic_ t) (eventTopic_ t) id (asyncClient_ t)
    (pubSubClient_ t) (ownsClient_ t) (userCallback_ t) (wasConnected_ t)
    (lastReconnectAttempt_ t).

Definition set_asyncClient (c : option AsyncMqttClient) (t : MqttTransport)
  : MqttTransport :=
  mkMqttTransport (dispatcher_ t) (config_ t) (standaloneMode_ t) (cmdTopic_ t)
    (respTopic_ t) (statusTopic_ t) (eventTopic_ t) (deviceId_ t) c
    (pubSubClient_ t) (ownsClient_ t) (userCallback_ t) (wasConnected_ t)
    (lastReconnectAttempt_ t).

Definition set_pubSubClient (c : option PubSubClient) (t : MqttTransport)
  : MqttTransport :=
  mkMqttTransport (dispatcher_ t) (config_ t) (standaloneMode_ t) (cmdTopic_ t)
    (respTopic_ t) (statusTopic_ t) (eventTopic_ t) (deviceId_ t) (asyncClient_ t)
    c (ownsClient_ t) (userCallback_ t) (wasConnected_ t) (lastReconnectAttempt_ t).

Definition set_ownsClient (b : bool) (t : MqttTransport) : MqttTransport :=
  mkMqttTransport (dispatcher_ t) (config_ t) (standaloneMode_ t) (cmdTopic_ t)
    (respTopic_ t) (statusTopic_ t) (eventTopic_ t) (deviceId_ t) (asyncClient_ t)
    (pubSubClient_ t) b (userCallback_ t) (wasConnected_ t) (lastReconnectAttempt_ t).

Definition set_userCallback (cb : option UserMessageCallback) (t : MqttTransport)
  : MqttTransport :=
  mkMqttTransport (dispatcher_ t) (config_ t) (standaloneMode_ t) (cmdTopic_ t)
    (respTopic_ t) (statusTopic_ t) (eventTopic_ t) (deviceId_ t) (asyncClient_ t)
    (pubSubClient_ t) (ownsClient_ t) cb (wasConnected_ t) (lastReconnectAttempt_ t).

Definition set_wasConnected (b : bool) (t : MqttTransport) : MqttTransport :=
  mkMqttTransport (dispatcher_ t) (config_ t) (standaloneMode_ t) (cmdTopic_ t)
    (respTopic_ t) (statusTopic_ t) (eventTopic_ t) (deviceId_ t) (asyncClient_ t)
    (pubSubClient_ t) (ownsClient_ t) (userCallback_ t) b (lastReconnectAttempt_ t).

Definition set_lastReconnectAttempt (now : Z) (t : MqttTransport) : MqttTransport :=
  mkMqttTransport (dispatcher_ t) (config_ t) (standaloneMode_ t) (cmdTopic_ t)
    (respTopic_ t) (statusTopic_ t) (eventTopic_ t) (deviceId_ t) (asyncClient_ t)
    (pubSubClient_ t) (ownsClient_ t) (userCallback_ t) (wasConnected_ t) now.

(** ** The transport ([MqttTransport.cpp]) *)

(** The constructor taking only a dispatcher: integration mode, default
    configuration. *)
Definition construct (dispatcher : option Dispatcher) : MqttTransport :=
  {| dispatcher_ := dispatcher;
     config_ := default_MqttConfig;
     standaloneMode_ := false;
     cmdTopic_ := ""; respTopic_ := ""; statusTopic_ := ""; eventTopic_ := "";
     deviceId_ := "";
     asyncClient_ := None; pubSubClient_ := None; ownsClient_ := false;
     userCallback_ := None;
     wasConnected_ := false; lastReconnectAttempt_ := 0 |}.

(** The constructor taking a dispatcher and a configuration: standalone mode. *)
Definition construct_with_config (dispatcher : option Dispatcher) (config : MqttConfig)
  : MqttTransport :=
  {| dispatcher_ := dispatcher;
     config_ := config;
     standaloneMode_ := true;
     cmdTopic_ := ""; respTopic_ := ""; statusTopic_ := ""; eventTopic_ := "";
     deviceId_ := "";
     asyncClient_ := None; pubSubClient_ := None; ownsClient_ := false;
     userCallback_ := None;
     wasConnected_ := false; lastReconnectAttempt_ := 0 |}.

(** [config_.baseTopic ? config_.baseTopic : "espmole"] *)
Definition base_of (cfg : MqttConfig) : string :=
  match baseTopic cfg with
  | Some b => b
  | None => "espmole"
  end.

(** [p && p->connected()] *)
Definition live {C : Type} (p : option C) (is_connected : C -> bool) : option C :=
  match p with
  | Some c => if is_connected c then Some c else None
  | None => None
  end.

Definition when (b : bool) (m : M unit) : M unit := if b then m else ret tt.

(** The outcome of the two tests of [handleMessage], named as the
    specification names them. *)
Inductive Route : Type := OwnCommand | OwnOther | Foreign.

Section Transport.

(** Whether [<PubSubClient.h>] was found when the library was compiled. *)
Variable ESPMOLE_HAS_PUBSUBCLIENT : bool.

(** The environment of the call being made. *)
Variable e : Env.

Definition setUserCallback (cb : option UserMessageCallback) : M unit :=
  modify (set_userCallback cb).

Definition destroy : M unit :=
  this <- get ;;
  match asyncClient_ this with
  | Some c =>
      when (ownsClient_ this)
        (emit (AsyncDisconnect c) ;;
         emit (AsyncDelete c) ;;
         modify (set_asyncClient None))
  | None => ret tt
  end.

Definition mac_byte (i : nat) : byte := nth i (macAddress e) x00.

(** The output of the format ["%02X%02X%02X%02X%02X%02X"] on the MAC
    address. *)
Definition mac_hex : string :=
  fmt_02X (mac_byte 0) ++ fmt_02X (mac_byte 1) ++ fmt_02X (mac_byte 2) ++
  fmt_02X (mac_byte 3) ++ fmt_02X (mac_byte 4) ++ fmt_02X (mac_byte 5).

Definition buildDeviceId : M unit :=
  this <- get ;;
  match deviceId (config_ this) with
  | Some id =>
      modify (set_deviceId (strncpy_terminated id (DEVICE_ID_MAX_LEN - 1)))
  | None =>
      modify (set_deviceId (snprintf DEVICE_ID_MAX_LEN mac_hex))
  end.

(** The output of the format ["%s/%s" suffix]. *)
Definition topic_format (base id suffix : string) : string :=
  c_str base ++ "/" ++ c_str id ++ suffix.

Definition buildTopics : M unit :=
  buildDeviceId ;;
  this <- get ;;
  let base := base_of (config_ this) in
  modify (set_cmdTopic
    (snprintf TOPIC_MAX_LEN (topic_format base (deviceId_ this) "/cmd"))) ;;
  modify (set_respTopic
    (snprintf TOPIC_MAX_LEN (topic_format base (deviceId_ this) "/resp"))) ;;
  modify (set_statusTopic
    (snprintf TOPIC_MAX_LEN (topic_format base (deviceId_ this) "/status"))) ;;
  modify (set_eventTopic
    (snprintf TOPIC_MAX_LEN (topic_format base (deviceId_ this) "/event"))).

Definition connected (this : MqttTransport) : bool :=
  match asyncClient_ this with
  | Some c => async_connected e c
  | None =>
      if ESPMOLE_HAS_PUBSUBCLIENT
      then match pubSubClient_ this with
           | Some p => pubsub_connected e p
           | None => false
           end
      else false
  end.

Definition subscribeToCommandTopic : M unit :=
  this <- get ;;
  match asyncClient_ this with
  | Some c => emit (AsyncSubscribe c (cmdTopic_ this) (qos (config_ this)))
  | None =>
      if ESPMOLE_HAS_PUBSUBCLIENT
      then match pubSubClient_ this with
           | Some p => emit (PubSubSubscribe p (cmdTopic_ this))
           | None => ret tt
           end
      else ret tt
  end.

Definition mqttPublish (topic : string) (payload : list byte) (len : nat)
    (qos : Z) (retain : bool) : M bool :=
  this <- get ;;
  match live (asyncClient_ this) (async_connected e) with
  | Some c =>
      emit (AsyncPublish c topic qos retain payload len) ;;
      ret true
  | None =>
      if ESPMOLE_HAS_PUBSUBCLIENT
      then match live (pubSubClient_ this) (pubsub_connected e) with
           | Some p =>
               emit (PubSubPublish p topic payload len retain) ;;
               ret (pubsub_publish e p topic payload len retain)
           | None => ret false
           end
      else ret false
  end.

Definition publishBirth : M unit :=
  this <- get ;;
  if negb (enableStatus (config_ this)) then ret tt
  else
    _ <- mqttPublish (statusTopic_ this)
           (list_byte_of_string (birthPayload (config_ this)))
           (strlen (birthPayload (config_ this)))
           1 (retainStatus (config_ this)) ;;
    ret tt.

Definition isMoleTopic (this : MqttTransport) (topic : string) : bool :=
  let base := base_of (config_ this) in
  let baseLen := strlen base in
  (strncmp topic base baseLen =? 0)%Z && Ascii.eqb (char_at topic baseLen) "/"%char.

Definition processCommand (payload : list byte) (len : nat) : M unit :=
  this <- get ;;
  match dispatcher_ this with
  | None => ret tt
  | Some d =>
      emit (DispatcherIngest d PEER_MQTT payload len RESPONSE_BUFFER_SIZE) ;;
      let '(response, respLen) :=
        ingest e d PEER_MQTT payload len RESPONSE_BUFFER_SIZE in
      if (0 <? respLen)%nat
      then _ <- mqttPublish (respTopic_ this) response respLen
                  (qos (config_ this)) false ;;
           ret tt
      else ret tt
  end.

Definition handleMessage (topic : string) (payload : list byte) (len : nat)
  : M bool :=
  this <- get ;;
  if negb (strcmp topic (cmdTopic_ this) =? 0)%Z then
    if isMoleTopic this topic then ret true
    else
      match userCallback_ this with
      | Some cb => emit (UserCallback cb topic payload len)
      | None => ret tt
      end ;;
      ret false
  else
    processCommand payload len ;;
    ret true.

(** The branch [handleMessage] takes, by the same two tests in the same
    order. *)
Definition route (this : MqttTransport) (topic : string) : Route :=
  if negb (strcmp topic (cmdTopic_ this) =? 0)%Z then
    if isMoleTopic this topic then OwnOther else Foreign
  else OwnCommand.

Definition begin : M unit :=
  this <- get ;;
  when (negb (standaloneMode_ this)) (modify (set_standaloneMode true)) ;;
  buildTopics ;;
  this <- get ;;
  match broker (config_ this) with
  | None => ret tt
  | Some host =>
      let c := new_AsyncMqttClient e in
      emit (AsyncNew c) ;;
      modify (set_asyncClient (Some c)) ;;
      modify (set_ownsClient true) ;;
      emit (AsyncSetServer c host (port (config_ this))) ;;
      match username (config_ this) with
      | Some user => emit (AsyncSetCredentials c user (password (config_ this)))
      | None => ret tt
      end ;;
      match clientId (config_ this) with
      | Some id => emit (AsyncSetClientId c id)
      | None => emit (AsyncSetClientId c (deviceId_ this))
      end ;;
      when (enableStatus (config_ this))
        (emit (AsyncSetWill c (statusTopic_ this) 1 (retainStatus (config_ this))
                 (lwtPayload (config_ this)))) ;;
      emit (AsyncOnConnect c) ;;
      emit (AsyncOnDisconnect c) ;;
      emit (AsyncOnMessage c) ;;
      emit (AsyncConnect c)
  end.

Definition poll : M unit :=
  this <- get ;;
  match standaloneMode_ this, asyncClient_ this with
  | true, Some c =>
      let isConnected := async_connected e c in
      when (negb isConnected && wasConnected_ this) (modify (set_wasConnected false)) ;;
      if negb isConnected then
        let now := millis e in
        this <- get ;;
        if ((now - lastReconnectAttempt_ this) mod UINT32_MODULUS
              >=? reconnectInterval (config_ this))%Z
        then modify (set_lastReconnectAttempt now) ;;
             emit (AsyncConnect c)
        else ret tt
      else ret tt
  | _, _ => ret tt
  end.

Definition onAsyncConnect (sessionPresent : bool) : M unit :=
  modify (set_wasConnected true) ;;
  subscribeToCommandTopic ;;
  publishBirth.

Definition onAsyncDisconnect (reason : Z) : M unit :=
  modify (set_wasConnected false).

Definition onAsyncMessage (topic : string) (payload : list byte)
    (len index total : nat) : M unit :=
  if negb (index =? 0)%nat || negb (len =? total)%nat then ret tt
  else
    _ <- handleMessage topic payload len ;;
    ret tt.

(** [attachTo] for an [AsyncMqttClient]; the pointer is dereferenced, so the
    caller passes an object. *)
Definition attachTo_async (client : AsyncMqttClient) : M unit :=
  modify (set_asyncClient (Some client)) ;;
  modify (set_ownsClient false) ;;
  modify (set_standaloneMode false) ;;
  buildTopics ;;
  this <- get ;;
  when (enableStatus (config_ this))
    (emit (AsyncSetWill client (statusTopic_ this) 1 (retainStatus (config_ this))
             (lwtPayload (config_ this)))).

(** [attachTo] for a [PubSubClient]. *)
Definition attachTo_pubsub (client : option PubSubClient) : M unit :=
  if ESPMOLE_HAS_PUBSUBCLIENT then
    modify (set_pubSubClient client) ;;
    modify (set_ownsClient false) ;;
    modify (set_standaloneMode false) ;;
    buildTopics ;;
    subscribeToCommandTopic ;;
    publishBirth
  else ret tt.

Definition onMqttConnect : M unit :=
  subscribeToCommandTopic ;;
  publishBirth.

Definition send (peer : PeerHandle) (data : list byte) (len : nat) : M bool :=
  this <- get ;;
  mqttPublish (respTopic_ this) data len (qos (config_ this)) false.

Definition broadcast (data : list byte) (len : nat) : M bool :=
  this <- get ;;
  mqttPublish (eventTopic_ this) data len (qos (config_ this)) false.

Definition subscribe (topic : string) (qos : Z) : M bool :=
  this <- get ;;
  match live (asyncClient_ this) (async_connected e) with
  | Some c =>
      emit (AsyncSubscribe c topic qos) ;;
      ret true
  | None =>
      if ESPMOLE_HAS_PUBSUBCLIENT
      then match live (pubSubClient_ this) (pubsub_connected e) with
           | Some p =>
               emit (PubSubSubscribe p topic) ;;
               ret (pubsub_subscribe e p topic)
           | None => ret false
           end
      else ret false
  end.

Definition publish (topic : string) (payload : list byte) (len : nat)
    (qos : Z) (retain : bool) : M bool :=
  mqttPublish topic payload len qos retain.

End Transport.

(** ** Driving the transport *)

(** The calls the host application and the owned client make on the
    transport. *)
Inductive Call : Type :=
| CallBegin
| CallAttachAsync (client : AsyncMqttClient)
| CallAttachPubSub (client : option PubSubClient)
| CallPoll
| CallOnAsyncConnect (sessionPresent : bool)
| CallOnAsyncDisconnect (reason : Z)
| CallOnAsyncMessage (topic : string) (payload : list byte) (len index total : nat)
| CallOnMqttConnect
| CallHandleMessage (topic : string) (payload : list byte) (len : nat)
| CallSend (peer : PeerHandle) (data : list byte) (len : nat)
| CallBroadcast (data : list byte) (len : nat)
| CallSubscribe (topic : string) (qos : Z)
| CallPublish (topic : string) (payload : list byte) (len : nat) (qos : Z)
    (retain : bool)
| CallSetUserCallback (cb : option UserMessageCallback).

Definition discard {A : Type} (m : M A) : M unit := _ <- m ;; ret tt.

Definition exec (HAS : bool) (e : Env) (c : Call) : M unit :=
  match c with
  | CallBegin => begin e
  | CallAttachAsync client => attachTo_async e client
  | CallAttachPubSub client => attachTo_pubsub HAS e client
  | CallPoll => poll e
  | CallOnAsyncConnect sp => onAsyncConnect HAS e sp
  | CallOnAsyncDisconnect reason => onAsyncDisconnect reason
  | CallOnAsyncMessage topic payload len index total =>
      onAsyncMessage HAS e topic payload len index total
  | CallOnMqttConnect => onMqttConnect HAS e
  | CallHandleMessage topic payload len => discard (handleMessage HAS e topic payload len)
  | CallSend peer data len => discard (send HAS e peer data len)
  | CallBroadcast data len => discard (broadcast HAS e data len)
  | CallSubscribe topic qos => discard (subscribe HAS e topic qos)
  | CallPublish topic payload len qos retain =>
      discard (publish HAS e topic payload len qos retain)
  | CallSetUserCallback cb => setUserCallback cb
  end.

(** A sequence of calls, each in the environment it is made in. *)
Fixpoint run (HAS : bool) (calls : list (Env * Call)) : M unit :=
  match calls with
  | [] => ret tt
  | (e, c) :: rest => exec HAS e c ;; run HAS rest
  end.

(** The mode flag a call leaves behind, given the flag before it. *)
Definition mode_after (HAS : bool) (c : Call) (mode : bool) : bool :=
  match c with
  | CallBegin => true
  | CallAttachAsync _ => false
  | CallAttachPubSub _ => if HAS then false else mode
  | _ => mode
  end.

(** The ownership flag a call leaves behind, given the flag before it. *)
Definition owns_after (HAS : bool) (cfg : MqttConfig) (c : Call) (owns : bool) : bool :=
  match c with
  | CallBegin => match broker cfg with Some _ => true | None => owns end
  | CallAttachAsync _ => false
  | CallAttachPubSub _ => if HAS then false else owns
  | _ => owns
  end.

Definition is_activation (c : Call) : bool :=
  match c with
  | CallBegin | CallAttachAsync _ | CallAttachPubSub _ => true
  | _ => false
  end.

Definition is_connect (ev : Event) : bool :=
  match ev with
  | AsyncConnect _ => true
  | _ => false
  end.

Definition is_publish (ev : Event) : bool :=
  match ev with
  | AsyncPublish _ _ _ _ _ _ | PubSubPublish _ _ _ _ _ => true
  | _ => false
  end.

(** The number of connect attempts in a trace. *)
Definition connect_attempts (tr : list Event) : nat :=
  List.length (filter is_connect tr).

(** [s] starts with the characters of [p]. *)
Definition begins_with (p s : string) : Prop := exists r, s = p ++ r.

(** [s] holds no NUL: it is the C string it stores. *)
Definition no_nul (s : string) : Prop := c_str s = s.

(** Calls that create, connect, disconnect or destroy a client. *)
Definition is_lifecycle (ev : Event) : bool :=
  match ev with
  | AsyncNew _ | AsyncDelete _ | AsyncConnect _ | AsyncDisconnect _ => true
  | _ => false
  end.

Definition not_lifecycle (ev : Event) : bool := negb (is_lifecycle ev).

Definition is_begin (c : Call) : bool :=
  match c with
  | CallBegin => true
  | _ => false
  end.

(** Every call [m] makes on a collaborator satisfies [P]. *)
Definition emits_only {A : Type} (P : Event -> bool) (m : M A) : Prop :=
  forall this, forallb P (trace (m this)) = true.



(** ** A concrete device, used to exercise the statements below *)

Definition example_config : MqttConfig :=
  {| broker := Some "192.168.1.100";
     port := 1883;
     username := None;
     password := None;
     clientId := None;
     baseTopic := Some "espmole";
     deviceId := Some "test123";
     enableStatus := true;
     birthPayload := "online";
     lwtPayload := Some "offline";
     retainStatus := true;
     reconnectInterval := 5000;
     qos := 1 |}.

(** A dispatcher that answers every request with the two bytes [ok]. *)
Definition example_ingest (d : Dispatcher) (peer : PeerHandle) (payload : list byte)
    (len capacity : nat) : list byte * nat :=
  (list_byte_of_string "ok", 2).

Definition example_env (now : Z) (is_connected : bool) : Env :=
  {| clock := now;
     macAddress := [xde; xad; xbe; xef; x00; x1a];
     new_AsyncMqttClient := 7;
     async_connected := fun _ => is_connected;
     pubsub_connected := fun _ => is_connected;
     pubsub_publish := fun _ _ _ _ _ => true;
     pubsub_subscribe := fun _ _ => true;
     ingest := example_ingest |}.

(** The standalone device of the example sketch after [begin]. *)
Definition example_transport : MqttTransport :=
  state_of (begin (example_env 0 false) (construct_with_config (Some 1) example_config)).

(** ** Facts about the C string functions *)

Lemma code_inj (c1 c2 : ascii) : code c1 = code c2 -> c1 = c2.
Proof.
  unfold code; intros H. apply N2Z.inj in H.
  rewrite <- (ascii_N_embedding c1), <- (ascii_N_embedding c2).
  now rewrite H.
Qed.

Lemma code_NUL (c : ascii) : code c = 0%Z <-> c = NUL.
Proof.
  split; intros H.
  - apply code_inj. exact H.
  - subst c. reflexivity.
Qed.

Lemma code_diff (c1 c2 : ascii) : (code c1 - code c2 = 0)%Z <-> c1 = c2.
Proof.
  split; intros H.
  - apply code_inj. lia.
  - subst c2. lia.
Qed.

Lemma c_str_idem (s : string) : c_str (c_str s) = c_str s.
Proof.
  induction s as [|c r IH]; simpl; [reflexivity|].
  destruct (Ascii.eqb c NUL) eqn:E; simpl; [reflexivity|].
  now rewrite E, IH.
Qed.

Lemma c_str_app (s1 s2 : string) :
  no_nul s1 -> c_str (s1 ++ s2) = s1 ++ c_str s2.
Proof.
  unfold no_nul. induction s1 as [|c r IH]; simpl; intros H; [reflexivity|].
  destruct (Ascii.eqb c NUL); [discriminate|].
  injection H as H. now rewrite IH.
Qed.

Lemma no_nul_c_str (s : string) : no_nul (c_str s).
Proof. apply c_str_idem. Qed.

Lemma no_nul_app (s1 s2 : string) : no_nul s1 -> no_nul s2 -> no_nul (s1 ++ s2).
Proof.
  intros H1 H2. unfold no_nul. rewrite c_str_app by assumption. now rewrite H2.
Qed.

Lemma no_nul_take (n : nat) (s : string) : no_nul s -> no_nul (take n s).
Proof.
  unfold no_nul. revert s. induction n as [|n IH]; intros [|c r]; simpl; try reflexivity.
  destruct (Ascii.eqb c NUL); [discriminate|].
  intros H. injection H as H. now rewrite IH.
Qed.

Lemma take_all (n : nat) (s : string) : String.length s <= n -> take n s = s.
Proof.
  revert s. induction n as [|n IH]; intros [|c r]; simpl; intros H;
    try reflexivity; try lia.
  rewrite IH by lia. reflexivity.
Qed.

Lemma length_take (n : nat) (s : string) : String.length (take n s) <= n.
Proof.
  revert s. induction n as [|n IH]; intros [|c r]; simpl; try lia.
  specialize (IH r). lia.
Qed.

Lemma string_app_assoc (a b c : string) : (a ++ b) ++ c = a ++ (b ++ c).
Proof. induction a as [|x a IH]; simpl; [reflexivity | now rewrite IH]. Qed.

Lemma string_app_inv_head (p a b : string) : p ++ a = p ++ b -> a = b.
Proof.
  induction p as [|x p IH]; simpl; intros H; [exact H|].
  injection H as H. auto.
Qed.

Lemma string_app_length (a b : string) :
  String.length (a ++ b) = String.length a + String.length b.
Proof. induction a as [|x a IH]; simpl; [reflexivity | now rewrite IH]. Qed.

(** [strcmp] returns 0 exactly on equal C strings. *)
Lemma strcmp_eq0 (s1 s2 : string) : strcmp s1 s2 = 0%Z <-> c_str s1 = c_str s2.
Proof.
  revert s2. induction s1 as [|c1 r1 IH]; intros [|c2 r2]; simpl.
  - tauto.
  - destruct (Ascii.eqb_spec c2 NUL) as [->|N]; [now split|].
    split; [intros H | discriminate].
    exfalso; apply N; apply code_NUL; lia.
  - destruct (Ascii.eqb_spec c1 NUL) as [->|N]; [now split|].
    split; [intros H | discriminate].
    exfalso; apply N; apply code_NUL; lia.
  - destruct (Ascii.eqb_spec c1 c2) as [->|N].
    + destruct (Ascii.eqb_spec c2 NUL) as [->|N2]; [now split|].
      rewrite IH. split; [intros ->; reflexivity | intros H; now injection H].
    + split.
      * intros H. exfalso; apply N; now apply code_diff.
      * destruct (Ascii.eqb_spec c1 NUL) as [->|N1];
          destruct (Ascii.eqb_spec c2 NUL) as [->|N2];
          try discriminate; try congruence.
  Qed.

(** [strncmp] over the length of [b] returns 0 exactly when the C string of
    [t] starts with the C string of [b]. *)
Lemma strncmp_strlen_eq0 (t b : string) :
  strncmp t b (strlen b) = 0%Z <-> begins_with (c_str b) (c_str t).
Proof.
  unfold strlen, begins_with. revert t.
  induction b as [|c b IH]; intros t; simpl.
  - split; [intros _; now exists (c_str t) | reflexivity].
  - destruct (Ascii.eqb_spec c NUL) as [->|N]; simpl.
    + split; [intros _; now exists (c_str t) | reflexivity].
    + destruct t as [|c1 t]; simpl.
      * split; [intros H | intros [r H]; discriminate].
        exfalso; apply N; apply code_NUL; lia.
      * destruct (Ascii.eqb_spec c1 c) as [->|N1].
        -- destruct (Ascii.eqb_spec c NUL) as [->|_]; [congruence|].
           rewrite IH. split; intros [r H]; exists r.
           ++ now rewrite H.
           ++ now injection H.
        -- split.
           ++ intros H. exfalso; apply N1; now apply code_diff.
           ++ intros [r H]. destruct (Ascii.eqb_spec c1 NUL); [discriminate|].
              injection H as H _. congruence.
Qed.

(** The byte read just after a matched prefix. *)
Lemma char_at_after_prefix (t p r : string) :
  c_str t = p ++ r ->
  char_at t (String.length p) = match r with
                                | EmptyString => NUL
                                | String c _ => c
                                end.
Proof.
  unfold char_at. revert t. induction p as [|x p IH]; intros t; simpl.
  - destruct t as [|c t]; simpl.
    + intros <-. reflexivity.
    + destruct (Ascii.eqb_spec c NUL) as [->|N].
      * intros <-. reflexivity.
      * intros <-. reflexivity.
  - destruct t as [|c t]; simpl; [discriminate|].
    destruct (Ascii.eqb_spec c NUL) as [->|N]; [discriminate|].
    intros H. injection H as _ H. now apply IH.
Qed.

(** ** Message routing *)

Lemma isMoleTopic_spec (this : MqttTransport) (topic : string) :
  isMoleTopic this topic = true <->
  begins_with (c_str (base_of (config_ this)) ++ "/") (c_str topic).
Proof.
  unfold isMoleTopic. rewrite andb_true_iff, Z.eqb_eq, strncmp_strlen_eq0.
  set (b := c_str (base_of (config_ this))). unfold strlen. fold b.
  split.
  - intros [[r Hr] Hc]. rewrite (char_at_after_prefix _ _ _ Hr) in Hc.
    destruct r as [|c r]; [discriminate Hc|].
    apply Ascii.eqb_eq in Hc. subst c.
    exists r. rewrite Hr. now rewrite string_app_assoc.
  - intros [r Hr]. rewrite string_app_assoc in Hr. split.
    + now exists ("/" ++ r).
    + rewrite (char_at_after_prefix _ _ _ Hr). reflexivity.
Qed.

Lemma route_OwnCommand (this : MqttTransport) (topic : string) :
  route this topic = OwnCommand <-> c_str topic = c_str (cmdTopic_ this).
Proof.
  unfold route. rewrite <- strcmp_eq0.
  destruct (Z.eqb_spec (strcmp topic (cmdTopic_ this)) 0) as [E|E]; simpl.
  - tauto.
  - destruct (isMoleTopic this topic); split; intros H; congruence.
Qed.

Lemma route_OwnOther (this : MqttTransport) (topic : string) :
  route this topic = OwnOther <->
  begins_with (c_str (base_of (config_ this)) ++ "/") (c_str topic) /\
  c_str topic <> c_str (cmdTopic_ this).
Proof.
  unfold route. rewrite <- strcmp_eq0, <- isMoleTopic_spec.
  destruct (Z.eqb_spec (strcmp topic (cmdTopic_ this)) 0) as [E|E]; simpl.
  - split; [discriminate | tauto].
  - destruct (isMoleTopic this topic); split; try tauto; try discriminate.
    intros [H _]; discriminate.
Qed.

Lemma route_Foreign (this : MqttTransport) (topic : string) :
  route this topic = Foreign <->
  ~ begins_with (c_str (base_of (config_ this)) ++ "/") (c_str topic) /\
  c_str topic <> c_str (cmdTopic_ this).
Proof.
  unfold route. rewrite <- strcmp_eq0, <- isMoleTopic_spec.
  destruct (Z.eqb_spec (strcmp topic (cmdTopic_ this)) 0) as [E|E]; simpl.
  - split; [discriminate | tauto].
  - destruct (isMoleTopic this topic); split; try discriminate.
    + intros [H _]. now contradiction H.
    + intros _. split; [discriminate | exact E].
    + reflexivity.
Qed.

(** [handleMessage], branch by branch. *)
Lemma handleMessage_route (HAS : bool) (e : Env) (topic : string)
    (payload : list byte) (len : nat) (this : MqttTransport) :
  handleMessage HAS e topic payload len this =
  match route this topic with
  | OwnCommand => (processCommand HAS e payload len ;; ret true) this
  | OwnOther => ret true this
  | Foreign =>
      (match userCallback_ this with
       | Some cb => emit (UserCallback cb topic payload len)
       | None => ret tt
       end ;;
       ret false) this
  end.
Proof.
  unfold handleMessage, route, bind at 1, get.
  destruct (negb (strcmp topic (cmdTopic_ this) =? 0)%Z).
  - destruct (isMoleTopic this topic).
    + reflexivity.
    + destruct (userCallback_ this); reflexivity.
  - destruct (bind (processCommand HAS e payload len) (fun _ => ret true) this)
      as [[b t] tr]. now rewrite app_nil_l.
Qed.

(** A topic whose match with the base is not followed by the separator is
    outside the namespace. *)
Lemma no_separator_not_in_namespace (b r : string) :
  ~ begins_with "/" r -> ~ begins_with (b ++ "/") (b ++ r).
Proof.
  intros N [x H]. apply N. rewrite string_app_assoc in H.
  apply string_app_inv_head in H. now exists x.
Qed.

(** C1, as the code has it.  [handleMessage] classifies every inbound topic in
    exactly one of three ways: as the own command topic exactly when it equals
    the command topic string (then the payload goes to the dispatcher), as
    another topic of the namespace exactly when it begins with the base
    followed by the separator without being the command topic, and as foreign
    otherwise.  Provided the stored command topic itself begins with the base
    followed by the separator, a topic equal to the base, or one whose match
    with the base is not followed by the separator, is foreign. *)
Theorem handleMessage_classifies (HAS : bool) (e : Env) (this : MqttTransport)
    (topic : string) (payload : list byte) (len : nat) :
  let base := c_str (base_of (config_ this)) in
  let cmd := c_str (cmdTopic_ this) in
  (route this topic = OwnCommand <-> c_str topic = cmd) /\
  (route this topic = OwnOther <->
     begins_with (base ++ "/") (c_str topic) /\ c_str topic <> cmd) /\
  (route this topic = Foreign <->
     ~ begins_with (base ++ "/") (c_str topic) /\ c_str topic <> cmd) /\
  handleMessage HAS e topic payload len this =
    match route this topic with
    | OwnCommand => (processCommand HAS e payload len ;; ret true) this
    | OwnOther => ret true this
    | Foreign =>
        (match userCallback_ this with
         | Some cb => emit (UserCallback cb topic payload len)
         | None => ret tt
         end ;;
         ret false) this
    end /\
  (begins_with (base ++ "/") cmd ->
   (c_str topic = base -> route this topic = Foreign) /\
   (forall r, c_str topic = base ++ r -> ~ begins_with "/" r ->
              route this topic = Foreign)).
Proof.
  intros base cmd.
  split; [apply route_OwnCommand|].
  split; [apply route_OwnOther|].
  split; [apply route_Foreign|].
  split; [apply handleMessage_route|].
  intros Hcmd.
  assert (Hr : forall r, c_str topic = base ++ r -> ~ begins_with "/" r ->
                         route this topic = Foreign).
  { intros r Ht Hsep. apply route_Foreign. fold base cmd. split.
    - rewrite Ht. now apply no_separator_not_in_namespace.
    - intros Heq. apply (no_separator_not_in_namespace base r Hsep).
      rewrite <- Ht, Heq. exact Hcmd. }
  split; [|exact Hr].
  intros Ht. apply (Hr ""%string).
  - rewrite Ht. clear. induction base as [|c b IH]; simpl; congruence.
  - intros [x Hx]. discriminate Hx.
Qed.

Lemma handleMessage_classifies_witness :
  route example_transport "espmole" = Foreign /\
  route example_transport "espmole2/test123/cmd" = Foreign.
Proof.
  split.
  - apply (handleMessage_classifies true (example_env 0 true) example_transport
             "espmole" [] 0).
    + exists "test123/cmd". reflexivity.
    + reflexivity.
  - apply (handleMessage_classifies true (example_env 0 true) example_transport
             "espmole2/test123/cmd" [] 0) with (r := "2/test123/cmd").
    + exists "test123/cmd". reflexivity.
    + reflexivity.
    + intros [x Hx]. discriminate Hx.
Defined.

(** C1 as stated fails: the comparison with the command topic comes first,
    and truncation can leave the command topic equal to the base.  With a base
    of 79 characters [buildTopics] stores the base itself as command topic, and
    a message whose topic is the base, with no separator after it, is taken
    for a command and handed to the dispatcher. *)
Lemma topic_equal_to_base_taken_for_command :
  let base :=
    "plant-a/building-7/floor-3/room-12/rack-b/line-4/automation/controllers/espmole" in
  let cfg := {| broker := None; port := 1883; username := None; password := None;
                clientId := None; baseTopic := Some base; deviceId := Some "test123";
                enableStatus := true; birthPayload := "online";
                lwtPayload := Some "offline"; retainStatus := true;
                reconnectInterval := 5000; qos := 0 |} in
  let this := state_of (buildTopics (example_env 0 false)
                          (construct_with_config (Some 1) cfg)) in
  String.length base = TOPIC_MAX_LEN - 1 /\
  base_of (config_ this) = base /\
  cmdTopic_ this = base /\
  route this base = OwnCommand /\
  handleMessage true (example_env 10 false) base (list_byte_of_string "ping") 4 this =
    (true, this, [DispatcherIngest 1 PEER_MQTT (list_byte_of_string "ping") 4 256]).
Proof. vm_compute. repeat split. Qed.

(** The cases the unit tests and the specification list. *)
Example route_examples :
  route example_transport "espmole/test123/cmd" = OwnCommand /\
  route example_transport "espmole/device/cmd" = OwnOther /\
  route example_transport "espmole/test123/resp" = OwnOther /\
  route example_transport "home/sensor/temp" = Foreign /\
  route example_transport "espmo" = Foreign.
Proof. repeat split. Qed.

(** C4. On a foreign topic [handleMessage] calls the user callback, when one
    is set, with the topic, payload and length it was given, makes no other
    call (so publishes nothing), leaves the transport unchanged and returns
    [false]; on another topic of the own namespace it makes no call at all
    and returns [true]. *)
Theorem handleMessage_foreign_and_own_other (HAS : bool) (e : Env)
    (this : MqttTransport) (topic : string) (payload : list byte) (len : nat) :
  let r := handleMessage HAS e topic payload len this in
  (route this topic = Foreign ->
     result r = false /\ state_of r = this /\
     trace r = match userCallback_ this with
               | Some cb => [UserCallback cb topic payload len]
               | None => []
               end /\
     forallb (fun ev => negb (is_publish ev)) (trace r) = true) /\
  (route this topic = OwnOther ->
     result r = true /\ state_of r = this /\ trace r = []).
Proof.
  intros r. subst r. rewrite handleMessage_route.
  split; intros ->.
  - destruct (userCallback_ this); repeat split.
  - repeat split.
Qed.

Lemma handleMessage_foreign_and_own_other_witness :
  trace (handleMessage true (example_env 0 true) "home/sensor/temp"
           (list_byte_of_string "21.5") 4
           (set_userCallback (Some 3) example_transport)) =
    [UserCallback 3 "home/sensor/temp" (list_byte_of_string "21.5") 4] /\
  trace (handleMessage true (example_env 0 true) "espmole/test123/status"
           (list_byte_of_string "online") 6 example_transport) = [].
Proof.
  split.
  - apply (handleMessage_foreign_and_own_other true (example_env 0 true)
             (set_userCallback (Some 3) example_transport) "home/sensor/temp").
    reflexivity.
  - apply (handleMessage_foreign_and_own_other true (example_env 0 true)
             example_transport "espmole/test123/status").
    reflexivity.
Defined.

(** C6. A chunk that does not start at offset 0, or whose length is not the
    total length of the message, is dropped: [onAsyncMessage] makes no call on
    any collaborator (no dispatch, no publish, no user callback) and changes
    nothing. *)
Theorem onAsyncMessage_drops_fragments (HAS : bool) (e : Env) (this : MqttTransport)
    (topic : string) (payload : list byte) (len index total : nat) :
  index <> 0 \/ len <> total ->
  onAsyncMessage HAS e topic payload len index total this = (tt, this, []).
Proof.
  intros H. unfold onAsyncMessage.
  destruct (Nat.eqb_spec index 0) as [Hi|Hi]; simpl.
  - destruct (Nat.eqb_spec len total) as [Hl|Hl]; simpl.
    + lia.
    + reflexivity.
  - reflexivity.
Qed.

Lemma onAsyncMessage_drops_fragments_witness :
  onAsyncMessage true (example_env 0 true) "espmole/test123/cmd"
    (list_byte_of_string "pi") 2 0 4 example_transport = (tt, example_transport, []) /\
  onAsyncMessage true (example_env 0 true) "espmole/test123/cmd"
    (list_byte_of_string "ng") 2 2 4 example_transport = (tt, example_transport, []).
Proof.
  split.
  - apply onAsyncMessage_drops_fragments. right. discriminate.
  - apply onAsyncMessage_drops_fragments. left. discriminate.
Defined.

(** A complete message, in contrast, goes to [handleMessage] as it is. *)
Lemma onAsyncMessage_complete (HAS : bool) (e : Env) (this : MqttTransport)
    (topic : string) (payload : list byte) (len : nat) :
  onAsyncMessage HAS e topic payload len 0 len this =
  discard (handleMessage HAS e topic payload len) this.
Proof.
  unfold onAsyncMessage. rewrite !Nat.eqb_refl. reflexivity.
Qed.

(** ** Outbound operations *)

Lemma mqttPublish_no_client (HAS : bool) (e : Env) (this : MqttTransport)
    (topic : string) (payload : list byte) (len : nat) (q : Z) (retain : bool) :
  asyncClient_ this = None -> pubSubClient_ this = None ->
  mqttPublish HAS e topic payload len q retain this = (false, this, []).
Proof.
  intros Ha Hp. unfold mqttPublish, bind, get. rewrite Ha, Hp. simpl.
  destruct HAS; reflexivity.
Qed.

(** C10. While both client references are null, [connected] is false, and
    [send], [broadcast], [publish] and [subscribe] return false, make no call
    on any collaborator and leave the transport unchanged. *)
Theorem no_client_no_traffic (HAS : bool) (e : Env) (this : MqttTransport) :
  asyncClient_ this = None -> pubSubClient_ this = None ->
  connected HAS e this = false /\
  (forall peer data len, send HAS e peer data len this = (false, this, [])) /\
  (forall data len, broadcast HAS e data len this = (false, this, [])) /\
  (forall topic payload len q retain,
     publish HAS e topic payload len q retain this = (false, this, [])) /\
  (forall topic q, subscribe HAS e topic q this = (false, this, [])).
Proof.
  intros Ha Hp. repeat split.
  - unfold connected. rewrite Ha, Hp. destruct HAS; reflexivity.
  - intros. unfold send, bind at 1, get.
    now rewrite mqttPublish_no_client.
  - intros. unfold broadcast, bind at 1, get.
    now rewrite mqttPublish_no_client.
  - intros. unfold publish. now apply mqttPublish_no_client.
  - intros. unfold subscribe, bind, get. rewrite Ha, Hp. simpl.
    destruct HAS; reflexivity.
Qed.

Lemma no_client_no_traffic_witness :
  connected true (example_env 0 true) (construct (Some 1)) = false /\
  send true (example_env 0 true) PEER_MQTT (list_byte_of_string "ok") 2
    (construct (Some 1)) = (false, construct (Some 1), []).
Proof.
  destruct (no_client_no_traffic true (example_env 0 true) (construct (Some 1))
              eq_refl eq_refl) as (Hc & Hs & _).
  split; [exact Hc | apply Hs].
Defined.

(** C9, as the code has it.  [send] does not depend on its peer argument: two
    calls that agree on the data, the length and the transport give the same
    result, the same calls on the client and the same transport afterwards.
    [send] is the publish operation on the response topic with the configured
    QoS and retain off, and what that does depends on the clients: through a
    connected [AsyncMqttClient] it publishes the data to the response topic
    with the configured QoS, non-retained, and returns true; failing that,
    through a connected [PubSubClient] (where compiled in) it publishes the
    data to the response topic, non-retained, with no QoS argument, and
    returns what the client returns; with no connected client it publishes
    nothing and returns false. *)
Theorem send_ignores_peer (HAS : bool) (e : Env) (this : MqttTransport)
    (peer1 peer2 : PeerHandle) (data : list byte) (len : nat) :
  send HAS e peer1 data len this = send HAS e peer2 data len this /\
  send HAS e peer1 data len this =
    mqttPublish HAS e (respTopic_ this) data len (qos (config_ this)) false this /\
  state_of (send HAS e peer1 data len this) = this /\
  (forall c, live (asyncClient_ this) (async_connected e) = Some c ->
     send HAS e peer1 data len this =
       (true, this,
        [AsyncPublish c (respTopic_ this) (qos (config_ this)) false data len])) /\
  (forall p, live (asyncClient_ this) (async_connected e) = None ->
     HAS = true -> live (pubSubClient_ this) (pubsub_connected e) = Some p ->
     send HAS e peer1 data len this =
       (pubsub_publish e p (respTopic_ this) data len false, this,
        [PubSubPublish p (respTopic_ this) data len false])) /\
  (live (asyncClient_ this) (async_connected e) = None ->
   HAS = false \/ live (pubSubClient_ this) (pubsub_connected e) = None ->
   send HAS e peer1 data len this = (false, this, [])).
Proof.
  split; [reflexivity|].
  assert (Hs : send HAS e peer1 data len this =
               mqttPublish HAS e (respTopic_ this) data len (qos (config_ this))
                 false this).
  { unfold send, bind at 1, get.
    destruct (mqttPublish HAS e (respTopic_ this) data len (qos (config_ this))
                false this) as [[b t] tr]. reflexivity. }
  split; [exact Hs|]. rewrite Hs. clear Hs.
  unfold mqttPublish, bind, get.
  destruct (live (asyncClient_ this) (async_connected e)) as [c|].
  - split; [reflexivity|]. split; [|split].
    + intros c' Hc. injection Hc as <-. reflexivity.
    + intros p Hn. discriminate Hn.
    + intros Hn. discriminate Hn.
  - destruct HAS.
    + destruct (live (pubSubClient_ this) (pubsub_connected e)) as [p|].
      * split; [reflexivity|]. split; [discriminate|]. split.
        -- intros p' _ _ Hp. injection Hp as <-. reflexivity.
        -- intros _ [H|H]; discriminate H.
      * split; [reflexivity|]. split; [discriminate|]. split.
        -- intros p' _ _ Hp. discriminate Hp.
        -- reflexivity.
    + split; [reflexivity|]. split; [discriminate|]. split.
      * intros p' _ Hf. discriminate Hf.
      * reflexivity.
Qed.

Lemma send_ignores_peer_witness :
  send true (example_env 0 true) 42%Z (list_byte_of_string "ok") 2 example_transport =
  (true, example_transport,
   [AsyncPublish 7 "espmole/test123/resp" 1 false (list_byte_of_string "ok") 2]).
Proof.
  apply (send_ignores_peer true (example_env 0 true) example_transport 42%Z
           PEER_MQTT (list_byte_of_string "ok") 2).
  reflexivity.
Defined.

(** C9 as stated fails: [send] does not always publish, and not always at the
    configured QoS.  On the example device, while its client is not
    connected, [send] returns false and publishes nothing; on a device with
    QoS 1 configured that is attached to a connected [PubSubClient], the
    publish call [send] makes carries no QoS. *)
Lemma send_does_not_always_publish :
  let attached := state_of (attachTo_pubsub true (example_env 0 true) (Some 5)
                              (construct_with_config (Some 1) example_config)) in
  send true (example_env 0 false) PEER_MQTT (list_byte_of_string "ok") 2
    example_transport = (false, example_transport, []) /\
  qos (config_ attached) = 1%Z /\
  send true (example_env 0 true) PEER_MQTT (list_byte_of_string "ok") 2 attached =
    (true, attached,
     [PubSubPublish 5 "espmole/test123/resp" (list_byte_of_string "ok") 2 false]).
Proof. vm_compute. repeat split. Qed.

(** ** The command bridge *)

(** C2, as the code has it.  On the own command topic [handleMessage] returns
    [true] whatever happens and leaves the transport unchanged.  With a
    dispatcher set it makes one [ingest] call with the payload, the length and
    a response buffer of [RESPONSE_BUFFER_SIZE] bytes.  When the returned length
    is 0 it makes no other call.  When it is not 0 and a client is attached and
    connected, it publishes that response with that length to the response
    topic, retain off (with the configured QoS on an [AsyncMqttClient]); when
    no client is connected the response is dropped. *)
Theorem handleMessage_command (HAS : bool) (e : Env) (this : MqttTransport)
    (topic : string) (payload : list byte) (len : nat) :
  route this topic = OwnCommand ->
  let r := handleMessage HAS e topic payload len this in
  result r = true /\ state_of r = this /\
  match dispatcher_ this with
  | None => trace r = []
  | Some d =>
      let call := DispatcherIngest d PEER_MQTT payload len RESPONSE_BUFFER_SIZE in
      let response := fst (ingest e d PEER_MQTT payload len RESPONSE_BUFFER_SIZE) in
      let respLen := snd (ingest e d PEER_MQTT payload len RESPONSE_BUFFER_SIZE) in
      if (respLen =? 0)%nat then trace r = [call]
      else
        match live (asyncClient_ this) (async_connected e) with
        | Some c =>
            trace r = [call; AsyncPublish c (respTopic_ this) (qos (config_ this))
                               false response respLen]
        | None =>
            match (if HAS then live (pubSubClient_ this) (pubsub_connected e)
                   else None) with
            | Some p =>
                trace r = [call; PubSubPublish p (respTopic_ this) response respLen
                                   false]
            | None => trace r = [call]
            end
        end
  end.
Proof.
  intros Hr r. subst r. rewrite handleMessage_route, Hr.
  unfold processCommand, mqttPublish, result, state_of, trace.
  unfold bind, get, ret, emit. cbv beta.
  destruct (dispatcher_ this) as [d|]; [|repeat split].
  destruct (ingest e d PEER_MQTT payload len RESPONSE_BUFFER_SIZE)
    as [response respLen].
  destruct respLen as [|n]; [repeat split|].
  cbn [Nat.ltb Nat.leb Nat.eqb fst snd]. cbv beta iota.
  destruct (live (asyncClient_ this) (async_connected e)) as [c|];
    [repeat split|].
  destruct HAS; [|repeat split].
  destruct (live (pubSubClient_ this) (pubsub_connected e)) as [p|];
    repeat split.
Qed.

Lemma handleMessage_command_witness :
  trace (handleMessage true (example_env 0 true) "espmole/test123/cmd"
           (list_byte_of_string "ping") 4 example_transport) =
  [DispatcherIngest 1 PEER_MQTT (list_byte_of_string "ping") 4 256;
   AsyncPublish 7 "espmole/test123/resp" 1 false (list_byte_of_string "ok") 2].
Proof.
  apply (handleMessage_command true (example_env 0 true) example_transport
           "espmole/test123/cmd" (list_byte_of_string "ping") 4).
  reflexivity.
Defined.

(** C2 as stated fails: on the example device, while its client is not
    connected, a command arrives on the command topic, the dispatcher returns
    a response of 2 bytes, and nothing is published. *)
Lemma command_response_dropped_when_disconnected :
  let e := example_env 0 false in
  let r := handleMessage true e "espmole/test123/cmd" (list_byte_of_string "ping") 4
             example_transport in
  route example_transport "espmole/test123/cmd" = OwnCommand /\
  snd (ingest e 1 PEER_MQTT (list_byte_of_string "ping") 4 RESPONSE_BUFFER_SIZE) = 2 /\
  result r = true /\
  trace r = [DispatcherIngest 1 PEER_MQTT (list_byte_of_string "ping") 4 256] /\
  existsb is_publish (trace r) = false.
Proof. repeat split. Qed.

(** ** The topic namespace *)

Lemma fmt_02X_no_nul (b : byte) : no_nul (fmt_02X b).
Proof. destruct b; reflexivity. Qed.

Lemma mac_hex_no_nul (e : Env) : no_nul (mac_hex e).
Proof.
  unfold mac_hex. repeat apply no_nul_app; apply fmt_02X_no_nul.
Qed.

Lemma mac_hex_length (e : Env) : String.length (mac_hex e) = 12.
Proof. reflexivity. Qed.

(** The device identifier [buildDeviceId] resolves. *)
Lemma buildDeviceId_eq (e : Env) (this : MqttTransport) :
  buildDeviceId e this =
  (tt,
   set_deviceId
     match deviceId (config_ this) with
     | Some id => strncpy_terminated id (DEVICE_ID_MAX_LEN - 1)
     | None => snprintf DEVICE_ID_MAX_LEN (mac_hex e)
     end this,
   []).
Proof.
  unfold buildDeviceId, bind, get, modify.
  destruct (deviceId (config_ this)); reflexivity.
Qed.

Lemma buildTopics_eq (e : Env) (this : MqttTransport) :
  buildTopics e this =
  let this1 := state_of (buildDeviceId e this) in
  let fmt suffix :=
    snprintf TOPIC_MAX_LEN
      (topic_format (base_of (config_ this)) (deviceId_ this1) suffix) in
  (tt,
   set_eventTopic (fmt "/event")
     (set_statusTopic (fmt "/status")
        (set_respTopic (fmt "/resp") (set_cmdTopic (fmt "/cmd") this1))),
   []).
Proof.
  unfold buildTopics, bind at 1. rewrite buildDeviceId_eq. reflexivity.
Qed.

Lemma buildTopics_idempotent (e : Env) (this : MqttTransport) :
  buildTopics e (state_of (buildTopics e this)) = buildTopics e this.
Proof.
  rewrite !buildTopics_eq, !buildDeviceId_eq. reflexivity.
Qed.

Lemma buildTopics_config (e : Env) (this : MqttTransport) :
  config_ (state_of (buildTopics e this)) = config_ this.
Proof. rewrite buildTopics_eq, buildDeviceId_eq. reflexivity. Qed.

Lemma formatted_topic_fits (base id suffix : string) :
  no_nul base -> no_nul id ->
  String.length base + String.length id + 1 + String.length suffix
    <= TOPIC_MAX_LEN - 1 ->
  snprintf TOPIC_MAX_LEN (topic_format base id suffix) = base ++ "/" ++ id ++ suffix.
Proof.
  intros Hb Hi Hlen. unfold snprintf, topic_format. rewrite Hb, Hi.
  apply take_all. rewrite !string_app_length. simpl String.length. lia.
Qed.

(** C3. For a base and a device identifier that are C strings within the
    length limits (the identifier at most [DEVICE_ID_MAX_LEN - 1] characters
    when it is configured, the twelve hexadecimal digits of the MAC address
    otherwise; the longest topic, the status topic, at most
    [TOPIC_MAX_LEN - 1] characters), [buildTopics] stores the identifier and
    exactly the four topics base/id/cmd, base/id/resp, base/id/status and
    base/id/event.  Building again with the same configuration and the same
    identity source leaves every topic as it is. *)
Theorem buildTopics_namespace (e : Env) (this : MqttTransport) (base id : string) :
  base_of (config_ this) = base ->
  no_nul base ->
  (deviceId (config_ this) = Some id /\ no_nul id /\
   String.length id <= DEVICE_ID_MAX_LEN - 1) \/
  (deviceId (config_ this) = None /\ id = mac_hex e) ->
  String.length base + String.length id + 8 <= TOPIC_MAX_LEN - 1 ->
  let this' := state_of (buildTopics e this) in
  deviceId_ this' = id /\
  cmdTopic_ this' = base ++ "/" ++ id ++ "/cmd" /\
  respTopic_ this' = base ++ "/" ++ id ++ "/resp" /\
  statusTopic_ this' = base ++ "/" ++ id ++ "/status" /\
  eventTopic_ this' = base ++ "/" ++ id ++ "/event" /\
  trace (buildTopics e this) = [] /\
  buildTopics e this' = (tt, this', []).
Proof.
  intros Hbase Hb Hid Hlen this'.
  assert (Hdev : deviceId_ (state_of (buildDeviceId e this)) = id /\ no_nul id).
  { rewrite buildDeviceId_eq. unfold state_of; simpl.
    destruct Hid as [(-> & Hn & Hl) | (-> & ->)].
    - split; [|exact Hn]. unfold strncpy_terminated. rewrite Hn. now apply take_all.
    - split; [|apply mac_hex_no_nul]. unfold snprintf. apply take_all.
      rewrite mac_hex_length. unfold DEVICE_ID_MAX_LEN. lia. }
  destruct Hdev as [Hdev Hn].
  assert (Hfit : forall suffix, String.length suffix <= 7 ->
            snprintf TOPIC_MAX_LEN (topic_format base id suffix)
            = base ++ "/" ++ id ++ suffix).
  { intros suffix Hs. apply formatted_topic_fits; try assumption.
    unfold TOPIC_MAX_LEN in *. lia. }
  assert (Hidem : buildTopics e this' = (tt, this', [])).
  { unfold this'. rewrite buildTopics_idempotent.
    rewrite buildTopics_eq. reflexivity. }
  split; [|split; [|split; [|split; [|split; [|split]]]]]; try exact Hidem;
    unfold this'; rewrite buildTopics_eq; cbv zeta;
    unfold state_of at 1, trace; simpl fst; simpl snd.
  - exact Hdev.
  - rewrite Hbase, Hdev. apply Hfit. simpl; lia.
  - rewrite Hbase, Hdev. apply Hfit. simpl; lia.
  - rewrite Hbase, Hdev. apply Hfit. simpl; lia.
  - rewrite Hbase, Hdev. apply Hfit. simpl; lia.
  - reflexivity.
Qed.

Lemma buildTopics_namespace_witness :
  let this' := state_of (buildTopics (example_env 0 false)
                           (construct_with_config (Some 1) example_config)) in
  deviceId_ this' = "test123" /\
  cmdTopic_ this' = "espmole/test123/cmd" /\
  respTopic_ this' = "espmole/test123/resp" /\
  statusTopic_ this' = "espmole/test123/status" /\
  eventTopic_ this' = "espmole/test123/event" /\
  trace (buildTopics (example_env 0 false)
           (construct_with_config (Some 1) example_config)) = [] /\
  buildTopics (example_env 0 false) this' = (tt, this', []).
Proof.
  apply (buildTopics_namespace (example_env 0 false)
           (construct_with_config (Some 1) example_config) "espmole" "test123").
  - reflexivity.
  - reflexivity.
  - left. split; [reflexivity|]. split; [reflexivity|]. simpl. lia.
  - simpl. lia.
Defined.

(** Without a configured identifier the MAC address names the device. *)
Example buildTopics_mac_example :
  cmdTopic_ (state_of (buildTopics (example_env 0 false) (construct None))) =
  "espmole/DEADBEEF001A/cmd".
Proof. reflexivity. Qed.

(** Past the limit the topic is cut at [TOPIC_MAX_LEN - 1] characters, and
    building again still changes nothing. *)
Lemma buildTopics_bounded (e : Env) (this : MqttTransport) :
  let this' := state_of (buildTopics e this) in
  String.length (cmdTopic_ this') <= TOPIC_MAX_LEN - 1 /\
  String.length (respTopic_ this') <= TOPIC_MAX_LEN - 1 /\
  String.length (statusTopic_ this') <= TOPIC_MAX_LEN - 1 /\
  String.length (eventTopic_ this') <= TOPIC_MAX_LEN - 1.
Proof.
  rewrite buildTopics_eq. cbv zeta. unfold state_of, snprintf.
  cbn [fst snd set_eventTopic set_statusTopic set_respTopic set_cmdTopic
       cmdTopic_ respTopic_ statusTopic_ eventTopic_].
  repeat split; apply length_take.
Qed.

(** The topics [buildTopics] stores hold no NUL, so each is the C string the
    comparisons of [handleMessage] read. *)
Lemma buildTopics_no_nul (e : Env) (this : MqttTransport) :
  let this' := state_of (buildTopics e this) in
  no_nul (cmdTopic_ this') /\ no_nul (respTopic_ this') /\
  no_nul (statusTopic_ this') /\ no_nul (eventTopic_ this').
Proof.
  rewrite buildTopics_eq. cbv zeta. unfold state_of, snprintf, topic_format.
  cbn [fst snd set_eventTopic set_statusTopic set_respTopic set_cmdTopic
       cmdTopic_ respTopic_ statusTopic_ eventTopic_].
  repeat split; apply no_nul_take;
    repeat apply no_nul_app; try apply no_nul_c_str; reflexivity.
Qed.

(** ** The reconnect timer *)

Lemma poll_eq (e : Env) (this : MqttTransport) :
  poll e this =
  match standaloneMode_ this, asyncClient_ this with
  | true, Some c =>
      if async_connected e c then (tt, this, [])
      else
        let this1 := if wasConnected_ this then set_wasConnected false this else this in
        if ((millis e - lastReconnectAttempt_ this) mod UINT32_MODULUS
              >=? reconnectInterval (config_ this))%Z
        then (tt, set_lastReconnectAttempt (millis e) this1, [AsyncConnect c])
        else (tt, this1, [])
  | _, _ => (tt, this, [])
  end.
Proof.
  unfold poll, bind at 1, get.
  destruct (standaloneMode_ this); [|reflexivity].
  destruct (asyncClient_ this) as [c|]; [|reflexivity].
  destruct (async_connected e c); simpl.
  - reflexivity.
  - unfold when, bind, get, modify, emit, ret.
    destruct (wasConnected_ this); simpl;
      destruct ((millis e - lastReconnectAttempt_ this) mod UINT32_MODULUS
                  >=? reconnectInterval (config_ this))%Z; reflexivity.
Qed.

Ltac poll_cases e this :=
  rewrite poll_eq;
  destruct (standaloneMode_ this) eqn:Hmode; [|destruct (asyncClient_ this)];
  [destruct (asyncClient_ this) as [c|];
   [destruct (async_connected e c);
    [|destruct ((millis e - lastReconnectAttempt_ this) mod UINT32_MODULUS
                  >=? reconnectInterval (config_ this))%Z eqn:Hdue]|]| |].




(** The elapsed time computed on wrapped timestamps is the true elapsed time
    as long as that is below 2^32 ms. *)
Lemma elapsed_wraparound_safe (e1 e2 : Env) :
  (0 <= clock e2 - clock e1 < UINT32_MODULUS)%Z ->
  ((millis e2 - millis e1) mod UINT32_MODULUS = clock e2 - clock e1)%Z.
Proof.
  intros H. unfold millis. rewrite <- Zminus_mod.
  now apply Z.mod_small.
Qed.



(** Once the interval has elapsed, a disconnected standalone transport tries
    to connect and records when. *)
Lemma poll_reconnects_when_due (e : Env) (this : MqttTransport) (c : AsyncMqttClient) :
  standaloneMode_ this = true -> asyncClient_ this = Some c ->
  async_connected e c = false ->
  (reconnectInterval (config_ this)
     <= (millis e - lastReconnectAttempt_ this) mod UINT32_MODULUS)%Z ->
  trace (poll e this) = [AsyncConnect c] /\
  lastReconnectAttempt_ (state_of (poll e this)) = millis e.
Proof.
  intros Hm Hc Hd Hdue. rewrite poll_eq, Hm, Hc, Hd.
  apply Z.geb_le in Hdue. rewrite Hdue. split; reflexivity.
Qed.



(** The example device, disconnected: a poll at 6000 ms tries to connect, one
    at 9000 ms does not, one at 11000 ms does again; and the same across the
    wrap of the millisecond counter. *)
Example poll_example :
  let t1 := state_of (poll (example_env 6000 false) example_transport) in
  let t2 := state_of (poll (example_env 9000 false) t1) in
  trace (poll (example_env 6000 false) example_transport) = [AsyncConnect 7] /\
  trace (poll (example_env 9000 false) t1) = [] /\
  trace (poll (example_env 11000 false) t2) = [AsyncConnect 7].
Proof. repeat split. Qed.

Example poll_wraparound_example :
  let t1 := state_of (poll (example_env (2 ^ 32 - 10) false) example_transport) in
  trace (poll (example_env (2 ^ 32 - 10) false) example_transport) = [AsyncConnect 7] /\
  lastReconnectAttempt_ t1 = 4294967286%Z /\
  trace (poll (example_env (2 ^ 32 + 100) false) t1) = [] /\
  trace (poll (example_env (2 ^ 32 + 4990) false) t1) = [AsyncConnect 7].
Proof. repeat split. Qed.

(** ** What each operation leaves of the transport *)

Lemma state_of_bind {A B : Type} (m : M A) (k : A -> M B) (this : MqttTransport) :
  state_of (bind m k this) = state_of (k (result (m this)) (state_of (m this))).
Proof.
  unfold bind, state_of, result. destruct (m this) as [[a s1] t1]. simpl.
  destruct (k a s1) as [[b s2] t2]. reflexivity.
Qed.

Lemma buildTopics_pure (e : Env) (this : MqttTransport) :
  buildTopics e this = (tt, state_of (buildTopics e this), []).
Proof. rewrite buildTopics_eq. reflexivity. Qed.

(** [buildTopics] writes the identifier and the topics only. *)
Lemma buildTopics_frame (e : Env) (this : MqttTransport) :
  let this' := state_of (buildTopics e this) in
  standaloneMode_ this' = standaloneMode_ this /\
  ownsClient_ this' = ownsClient_ this /\
  asyncClient_ this' = asyncClient_ this /\
  pubSubClient_ this' = pubSubClient_ this /\
  config_ this' = config_ this.
Proof. rewrite buildTopics_eq, buildDeviceId_eq. repeat split. Qed.

Lemma mqttPublish_state (HAS : bool) (e : Env) (topic : string) (payload : list byte)
    (len : nat) (q : Z) (retain : bool) (this : MqttTransport) :
  state_of (mqttPublish HAS e topic payload len q retain this) = this.
Proof.
  unfold mqttPublish, bind, get, emit, ret. cbv beta.
  destruct (live (asyncClient_ this) (async_connected e)); [reflexivity|].
  destruct HAS; [|reflexivity].
  destruct (live (pubSubClient_ this) (pubsub_connected e)); reflexivity.
Qed.

Lemma subscribe_state (HAS : bool) (e : Env) (topic : string) (q : Z)
    (this : MqttTransport) :
  state_of (subscribe HAS e topic q this) = this.
Proof.
  unfold subscribe, bind, get, emit, ret. cbv beta.
  destruct (live (asyncClient_ this) (async_connected e)); [reflexivity|].
  destruct HAS; [|reflexivity].
  destruct (live (pubSubClient_ this) (pubsub_connected e)); reflexivity.
Qed.

Lemma subscribeToCommandTopic_state (HAS : bool) (e : Env) (this : MqttTransport) :
  state_of (subscribeToCommandTopic HAS this) = this.
Proof.
  unfold subscribeToCommandTopic, bind, get, emit, ret. cbv beta.
  destruct (asyncClient_ this); [reflexivity|].
  destruct HAS; [|reflexivity].
  destruct (pubSubClient_ this); reflexivity.
Qed.

Ltac step_bind :=
  rewrite state_of_bind;
  cbn [get emit modify ret result state_of fst snd].

Lemma publishBirth_state (HAS : bool) (e : Env) (this : MqttTransport) :
  state_of (publishBirth HAS e this) = this.
Proof.
  unfold publishBirth. step_bind.
  destruct (enableStatus (config_ this)); cbn [negb]; [|reflexivity].
  step_bind. apply mqttPublish_state.
Qed.

Lemma processCommand_state (HAS : bool) (e : Env) (payload : list byte) (len : nat)
    (this : MqttTransport) :
  state_of (processCommand HAS e payload len this) = this.
Proof.
  unfold processCommand. step_bind.
  destruct (dispatcher_ this) as [d|]; [|reflexivity].
  step_bind.
  destruct (ingest e d PEER_MQTT payload len RESPONSE_BUFFER_SIZE) as [resp n].
  destruct (0 <? n)%nat; [|reflexivity].
  step_bind. apply mqttPublish_state.
Qed.

Lemma handleMessage_state (HAS : bool) (e : Env) (topic : string)
    (payload : list byte) (len : nat) (this : MqttTransport) :
  state_of (handleMessage HAS e topic payload len this) = this.
Proof.
  rewrite handleMessage_route. destruct (route this topic).
  - step_bind. apply processCommand_state.
  - reflexivity.
  - destruct (userCallback_ this); reflexivity.
Qed.

(** [begin], in full. *)
Lemma begin_eq (e : Env) (this : MqttTransport) :
  begin e this =
  let this0 := if standaloneMode_ this then this else set_standaloneMode true this in
  let this1 := state_of (buildTopics e this0) in
  let cfg := config_ this in
  match broker cfg with
  | None => (tt, this1, [])
  | Some host =>
      let c := new_AsyncMqttClient e in
      (tt,
       set_ownsClient true (set_asyncClient (Some c) this1),
       [AsyncNew c; AsyncSetServer c host (port cfg)] ++
       match username cfg with
       | Some user => [AsyncSetCredentials c user (password cfg)]
       | None => []
       end ++
       [AsyncSetClientId c match clientId cfg with
                           | Some id => id
                           | None => deviceId_ this1
                           end] ++
       (if enableStatus cfg
        then [AsyncSetWill c (statusTopic_ this1) 1 (retainStatus cfg) (lwtPayload cfg)]
        else []) ++
       [AsyncOnConnect c; AsyncOnDisconnect c; AsyncOnMessage c; AsyncConnect c])%list
  end.
Proof.
  unfold begin, when, bind, get, modify, emit, ret. cbv beta zeta.
  assert (Hcfg : config_ (state_of (buildTopics e
                   (if standaloneMode_ this then this
                    else set_standaloneMode true this))) = config_ this).
  { rewrite buildTopics_config. destruct (standaloneMode_ this); reflexivity. }
  destruct (standaloneMode_ this); cbn [negb]; cbv iota beta;
    rewrite buildTopics_pure; cbv iota beta; rewrite Hcfg;
    destruct (broker (config_ this)); try reflexivity;
    destruct (username (config_ this)), (clientId (config_ this)),
      (enableStatus (config_ this)); reflexivity.
Qed.

Lemma attachTo_async_state (e : Env) (client : AsyncMqttClient) (this : MqttTransport) :
  state_of (attachTo_async e client this) =
  state_of (buildTopics e
    (set_standaloneMode false (set_ownsClient false
       (set_asyncClient (Some client) this)))).
Proof.
  unfold attachTo_async. repeat step_bind.
  destruct (enableStatus _); reflexivity.
Qed.

Lemma onAsyncConnect_state (HAS : bool) (e : Env) (sp : bool) (this : MqttTransport) :
  state_of (onAsyncConnect HAS e sp this) = set_wasConnected true this.
Proof.
  unfold onAsyncConnect. repeat step_bind.
  now rewrite publishBirth_state, subscribeToCommandTopic_state.
Qed.

Lemma onMqttConnect_state (HAS : bool) (e : Env) (this : MqttTransport) :
  state_of (onMqttConnect HAS e this) = this.
Proof.
  unfold onMqttConnect. step_bind.
  now rewrite publishBirth_state, subscribeToCommandTopic_state.
Qed.

Lemma attachTo_pubsub_state (HAS : bool) (e : Env) (client : option PubSubClient)
    (this : MqttTransport) :
  state_of (attachTo_pubsub HAS e client this) =
  if HAS
  then state_of (buildTopics e
         (set_standaloneMode false (set_ownsClient false
            (set_pubSubClient client this))))
  else this.
Proof.
  unfold attachTo_pubsub. destruct HAS; [|reflexivity].
  repeat step_bind.
  now rewrite publishBirth_state, subscribeToCommandTopic_state.
Qed.

Lemma onAsyncMessage_state (HAS : bool) (e : Env) (topic : string)
    (payload : list byte) (len index total : nat) (this : MqttTransport) :
  state_of (onAsyncMessage HAS e topic payload len index total this) = this.
Proof.
  unfold onAsyncMessage.
  destruct (negb (index =? 0)%nat || negb (len =? total)%nat); [reflexivity|].
  step_bind. apply handleMessage_state.
Qed.

(** What one call does to the mode flag, the ownership flag and the
    configuration. *)
Lemma exec_mode (HAS : bool) (e : Env) (c : Call) (this : MqttTransport) :
  let this' := state_of (exec HAS e c this) in
  standaloneMode_ this' = mode_after HAS c (standaloneMode_ this) /\
  ownsClient_ this' = owns_after HAS (config_ this) c (ownsClient_ this) /\
  config_ this' = config_ this.
Proof.
  destruct c; cbn [exec mode_after owns_after]; unfold discard;
    try step_bind.
  - rewrite begin_eq. cbv zeta.
    destruct (buildTopics_frame e
                (if standaloneMode_ this then this else set_standaloneMode true this))
      as (Hm & Ho & _ & _ & Hc).
    destruct (broker (config_ this)); cbn [state_of fst snd];
      cbn [standaloneMode_ ownsClient_ config_ set_ownsClient set_asyncClient];
      rewrite ?Hm, ?Ho, ?Hc; destruct (standaloneMode_ this) eqn:E; auto.
  - rewrite attachTo_async_state.
    destruct (buildTopics_frame e (set_standaloneMode false (set_ownsClient false
                (set_asyncClient (Some client) this)))) as (Hm & Ho & _ & _ & Hc).
    rewrite Hm, Ho, Hc. auto.
  - rewrite attachTo_pubsub_state. destruct HAS; [|auto].
    destruct (buildTopics_frame e (set_standaloneMode false (set_ownsClient false
                (set_pubSubClient client this)))) as (Hm & Ho & _ & _ & Hc).
    rewrite Hm, Ho, Hc. auto.
  - poll_cases e this; destruct (wasConnected_ this); repeat split;
      cbn [state_of fst snd]; try reflexivity; exact Hmode.
  - rewrite onAsyncConnect_state. auto.
  - auto.
  - rewrite onAsyncMessage_state. auto.
  - rewrite onMqttConnect_state. auto.
  - rewrite handleMessage_state. auto.
  - unfold send. step_bind. rewrite mqttPublish_state. auto.
  - unfold broadcast. step_bind. rewrite mqttPublish_state. auto.
  - rewrite subscribe_state. auto.
  - unfold publish. rewrite mqttPublish_state. auto.
  - auto.
Qed.

(** The destructor disconnects and deletes the client only when the
    transport owns it. *)
Lemma destroy_not_owned (this : MqttTransport) :
  ownsClient_ this = false -> destroy this = (tt, this, []).
Proof.
  intros H. unfold destroy, bind, get, when. rewrite H.
  destruct (asyncClient_ this); reflexivity.
Qed.

Lemma destroy_owned (this : MqttTransport) (c : AsyncMqttClient) :
  ownsClient_ this = true -> asyncClient_ this = Some c ->
  destroy this = (tt, set_asyncClient None this, [AsyncDisconnect c; AsyncDelete c]).
Proof.
  intros Ho Hc. unfold destroy, bind, get, when. rewrite Ho, Hc. reflexivity.
Qed.

(** ** Operating mode *)

Lemma run_cons (HAS : bool) (e : Env) (c : Call) (rest : list (Env * Call))
    (this : MqttTransport) :
  state_of (run HAS ((e, c) :: rest) this) =
  state_of (run HAS rest (state_of (exec HAS e c this))).
Proof. cbn [run]. now rewrite state_of_bind. Qed.

Lemma run_config (HAS : bool) (calls : list (Env * Call)) (this : MqttTransport) :
  config_ (state_of (run HAS calls this)) = config_ this.
Proof.
  revert this. induction calls as [|[e c] rest IH]; intros this.
  - reflexivity.
  - rewrite run_cons, IH. apply exec_mode.
Qed.

(** C7, as the code has it.  Activation does not lock the mode: [begin]
    always sets the mode flag to standalone, and an [attachTo] that is
    compiled in always clears the mode flag and the ownership flag.  So after
    any sequence of calls the mode flag is the one chosen by the most recent
    activation in it, and the ownership flag follows in the same way (a
    [begin] without broker address leaves it alone).  The calls that are not
    activations ([poll], the client callbacks, [handleMessage], [send],
    [broadcast], [subscribe], [publish], [setUserCallback]) change neither
    flag. *)
Theorem mode_follows_last_activation (HAS : bool) (calls : list (Env * Call))
    (this : MqttTransport) :
  let this' := state_of (run HAS calls this) in
  standaloneMode_ this' =
    fold_left (fun mode ec => mode_after HAS (snd ec) mode) calls
      (standaloneMode_ this) /\
  ownsClient_ this' =
    fold_left (fun owns ec => owns_after HAS (config_ this) (snd ec) owns) calls
      (ownsClient_ this) /\
  (forallb (fun ec => negb (is_activation (snd ec))) calls = true ->
   standaloneMode_ this' = standaloneMode_ this /\
   ownsClient_ this' = ownsClient_ this).
Proof.
  revert this. induction calls as [|[e c] rest IH]; intros this this'.
  - repeat split.
  - subst this'. rewrite run_cons.
    destruct (exec_mode HAS e c this) as (Hm & Ho & Hc).
    destruct (IH (state_of (exec HAS e c this))) as (IHm & IHo & IHf).
    cbn [fold_left snd forallb].
    split; [rewrite IHm, Hm; reflexivity|].
    split; [rewrite IHo, Ho, Hc; reflexivity|].
    intros Hquiet. apply andb_true_iff in Hquiet. destruct Hquiet as [Hq Hrest].
    destruct (IHf Hrest) as [IHm' IHo'].
    rewrite IHm', IHo', Hm, Ho.
    destruct c; try discriminate Hq; split; reflexivity.
Qed.

Lemma mode_follows_last_activation_witness :
  let calls := [(example_env 6000 false, CallPoll);
                (example_env 6001 true, CallOnAsyncConnect false);
                (example_env 6002 true,
                 CallHandleMessage "espmole/test123/cmd" (list_byte_of_string "ping") 4)] in
  standaloneMode_ (state_of (run true calls example_transport)) = true /\
  ownsClient_ (state_of (run true calls example_transport)) = true.
Proof.
  intros calls.
  apply (mode_follows_last_activation true calls example_transport).
  reflexivity.
Defined.

(** C7 as stated fails: a standalone transport that has run [begin] and is
    then handed a client by [attachTo] is in integration mode and no longer
    owns a client, so that its destructor leaves both clients alone. *)
Lemma mode_switched_by_later_activation :
  let e := example_env 0 false in
  let standalone := state_of (run true [(e, CallBegin)]
                      (construct_with_config (Some 1) example_config)) in
  let switched := state_of (run true [(e, CallAttachAsync 9)] standalone) in
  (standaloneMode_ standalone = true /\ ownsClient_ standalone = true /\
   asyncClient_ standalone = Some 7) /\
  (standaloneMode_ switched = false /\ ownsClient_ switched = false /\
   asyncClient_ switched = Some 9 /\ trace (destroy switched) = []).
Proof. repeat split. Qed.

(** ** Activation without a broker address *)

Lemma poll_no_client (e : Env) (this : MqttTransport) :
  asyncClient_ this = None -> poll e this = (tt, this, []).
Proof.
  intros H. rewrite poll_eq, H. destruct (standaloneMode_ this); reflexivity.
Qed.

Lemma polls_no_client (HAS : bool) (es : list Env) (this : MqttTransport) :
  asyncClient_ this = None ->
  run HAS (map (fun e => (e, CallPoll)) es) this = (tt, this, []).
Proof.
  intros H. induction es as [|e es IH]; [reflexivity|].
  cbn [map run exec]. unfold bind. now rewrite poll_no_client, IH.
Qed.

(** C8. With no broker address configured, [begin] returns having made no
    call on any collaborator: no client is created, no handler is registered
    (so no connect callback can fire later) and no connection is attempted;
    the client references and the ownership flag are as before.  On a
    transport that had no client yet, every later [poll] does nothing
    either. *)
Theorem begin_without_broker (HAS : bool) (e : Env) (this : MqttTransport) :
  broker (config_ this) = None ->
  let r := begin e this in
  trace r = [] /\
  asyncClient_ (state_of r) = asyncClient_ this /\
  pubSubClient_ (state_of r) = pubSubClient_ this /\
  ownsClient_ (state_of r) = ownsClient_ this /\
  standaloneMode_ (state_of r) = true /\
  (asyncClient_ this = None ->
   forall es : list Env,
     run HAS (map (fun e' => (e', CallPoll)) es) (state_of r) = (tt, state_of r, [])).
Proof.
  intros Hb r. subst r. rewrite begin_eq. cbv zeta. rewrite Hb.
  cbn [trace state_of fst snd].
  destruct (buildTopics_frame e
              (if standaloneMode_ this then this else set_standaloneMode true this))
    as (Hm & Ho & Ha & Hp & _).
  assert (Ha' : asyncClient_ (state_of (buildTopics e
                  (if standaloneMode_ this then this else set_standaloneMode true this)))
                = asyncClient_ this).
  { rewrite Ha. destruct (standaloneMode_ this); reflexivity. }
  split; [reflexivity|]. split; [exact Ha'|].
  split; [rewrite Hp; destruct (standaloneMode_ this); reflexivity|].
  split; [rewrite Ho; destruct (standaloneMode_ this); reflexivity|].
  split; [rewrite Hm; destruct (standaloneMode_ this) eqn:E; [exact E | reflexivity]|].
  intros Hnone es. apply polls_no_client. now rewrite Ha'.
Qed.

Lemma begin_without_broker_witness :
  let this := construct_with_config (Some 1) default_MqttConfig in
  let r := begin (example_env 0 false) this in
  trace r = [] /\ asyncClient_ (state_of r) = None /\
  run true [(example_env 5000 false, CallPoll); (example_env 10000 false, CallPoll)]
    (state_of r) = (tt, state_of r, []).
Proof.
  intros this r.
  destruct (begin_without_broker true (example_env 0 false) this eq_refl)
    as (Ht & Ha & _ & _ & _ & Hpoll).
  split; [exact Ht|]. split; [exact Ha|].
  exact (Hpoll eq_refl [example_env 5000 false; example_env 10000 false]).
Defined.

(** With a broker address the same call creates the client, configures it
    and asks it to connect. *)
Example begin_with_broker_example :
  trace (begin (example_env 0 false) (construct_with_config (Some 1) example_config)) =
  [AsyncNew 7; AsyncSetServer 7 "192.168.1.100" 1883; AsyncSetClientId 7 "test123";
   AsyncSetWill 7 "espmole/test123/status" 1 true (Some "offline");
   AsyncOnConnect 7; AsyncOnDisconnect 7; AsyncOnMessage 7; AsyncConnect 7].
Proof. reflexivity. Qed.

(** ** Presence announcement and subscription *)

Lemma trace_bind {A B : Type} (m : M A) (k : A -> M B) (this : MqttTransport) :
  trace (bind m k this) =
  (trace (m this) ++ trace (k (result (m this)) (state_of (m this))))%list.
Proof.
  unfold bind, state_of, result, trace. destruct (m this) as [[a s1] t1]. simpl.
  destruct (k a s1) as [[b s2] t2]. reflexivity.
Qed.

(** [mqttPublish], in full. *)
Lemma mqttPublish_eq (HAS : bool) (e : Env) (topic : string) (payload : list byte)
    (len : nat) (q : Z) (retain : bool) (this : MqttTransport) :
  mqttPublish HAS e topic payload len q retain this =
  match live (asyncClient_ this) (async_connected e) with
  | Some c => (true, this, [AsyncPublish c topic q retain payload len])
  | None =>
      match (if HAS then live (pubSubClient_ this) (pubsub_connected e) else None) with
      | Some p => (pubsub_publish e p topic payload len retain, this,
                   [PubSubPublish p topic payload len retain])
      | None => (false, this, [])
      end
  end.
Proof.
  unfold mqttPublish, bind, get, emit, ret. cbv beta.
  destruct (live (asyncClient_ this) (async_connected e)); [reflexivity|].
  destruct HAS; [|reflexivity].
  destruct (live (pubSubClient_ this) (pubsub_connected e)); reflexivity.
Qed.

Lemma publishBirth_eq (HAS : bool) (e : Env) (this : MqttTransport) :
  publishBirth HAS e this =
  if enableStatus (config_ this)
  then (tt, this,
        trace (mqttPublish HAS e (statusTopic_ this)
                 (list_byte_of_string (birthPayload (config_ this)))
                 (strlen (birthPayload (config_ this))) 1
                 (retainStatus (config_ this)) this))
  else (tt, this, []).
Proof.
  unfold publishBirth, bind at 1, get.
  destruct (enableStatus (config_ this)); cbn [negb]; [|reflexivity].
  unfold bind, ret. rewrite mqttPublish_eq.
  destruct (live (asyncClient_ this) (async_connected e)); [reflexivity|].
  destruct (if HAS then live (pubSubClient_ this) (pubsub_connected e) else None);
    reflexivity.
Qed.

Lemma subscribeToCommandTopic_eq (HAS : bool) (this : MqttTransport) :
  subscribeToCommandTopic HAS this =
  (tt, this,
   match asyncClient_ this with
   | Some c => [AsyncSubscribe c (cmdTopic_ this) (qos (config_ this))]
   | None =>
       match (if HAS then pubSubClient_ this else None) with
       | Some p => [PubSubSubscribe p (cmdTopic_ this)]
       | None => []
       end
   end).
Proof.
  unfold subscribeToCommandTopic, bind, get, emit, ret. cbv beta.
  destruct (asyncClient_ this); [reflexivity|].
  destruct HAS; [|reflexivity].
  destruct (pubSubClient_ this); reflexivity.
Qed.

Lemma run_parts {A : Type} (r : A * MqttTransport * list Event) :
  r = (result r, state_of r, trace r).
Proof. destruct r as [[a t] tr]. reflexivity. Qed.

Lemma unit_result (r : unit * MqttTransport * list Event) : result r = tt.
Proof. destruct r as [[[] t] tr]. reflexivity. Qed.

Lemma onMqttConnect_eq (HAS : bool) (e : Env) (this : MqttTransport) :
  onMqttConnect HAS e this =
  (tt, this,
   (trace (subscribeToCommandTopic HAS this) ++ trace (publishBirth HAS e this))%list).
Proof.
  rewrite (run_parts (onMqttConnect HAS e this)).
  rewrite unit_result, onMqttConnect_state.
  unfold onMqttConnect. rewrite trace_bind, (subscribeToCommandTopic_state HAS e).
  reflexivity.
Qed.

Lemma onAsyncConnect_eq (HAS : bool) (e : Env) (sp : bool) (this : MqttTransport) :
  onAsyncConnect HAS e sp this =
  (tt, set_wasConnected true this,
   (trace (subscribeToCommandTopic HAS this) ++ trace (publishBirth HAS e this))%list).
Proof.
  rewrite (run_parts (onAsyncConnect HAS e sp this)).
  rewrite unit_result, onAsyncConnect_state.
  unfold onAsyncConnect. rewrite !trace_bind.
  cbn [modify trace state_of result fst snd app].
  rewrite (subscribeToCommandTopic_state HAS e).
  rewrite !subscribeToCommandTopic_eq, !publishBirth_eq, !mqttPublish_eq.
  cbn [set_wasConnected config_ asyncClient_ pubSubClient_ cmdTopic_ statusTopic_].
  destruct (enableStatus (config_ this));
    destruct (live (asyncClient_ this) (async_connected e));
    try reflexivity;
    destruct (if HAS then live (pubSubClient_ this) (pubsub_connected e) else None);
    reflexivity.
Qed.

(** X1. On a connect event of a connected [AsyncMqttClient] the transport
    subscribes to its command topic with the configured QoS and then, when
    presence is enabled, publishes the birth payload once to the status topic
    at QoS 1 with the configured retain flag; with presence disabled it
    publishes nothing.  It makes no other call and only records that it is
    connected. *)
Theorem onAsyncConnect_subscribes_then_births (HAS : bool) (e : Env) (sp : bool)
    (this : MqttTransport) (c : AsyncMqttClient) :
  asyncClient_ this = Some c -> async_connected e c = true ->
  onAsyncConnect HAS e sp this =
  (tt, set_wasConnected true this,
   AsyncSubscribe c (cmdTopic_ this) (qos (config_ this)) ::
   if enableStatus (config_ this)
   then [AsyncPublish c (statusTopic_ this) 1 (retainStatus (config_ this))
           (list_byte_of_string (birthPayload (config_ this)))
           (strlen (birthPayload (config_ this)))]
   else []).
Proof.
  intros Hc Hconn. rewrite onAsyncConnect_eq, subscribeToCommandTopic_eq.
  rewrite publishBirth_eq, mqttPublish_eq. unfold live. rewrite Hc, Hconn.
  destruct (enableStatus (config_ this)); reflexivity.
Qed.

Lemma onAsyncConnect_subscribes_then_births_witness :
  onAsyncConnect true (example_env 100 true) false example_transport =
  (tt, set_wasConnected true example_transport,
   [AsyncSubscribe 7 "espmole/test123/cmd" 1;
    AsyncPublish 7 "espmole/test123/status" 1 true (list_byte_of_string "online") 6]).
Proof.
  apply (onAsyncConnect_subscribes_then_births true (example_env 100 true) false
           example_transport 7); reflexivity.
Defined.

(** X2. [onMqttConnect], the connect notification of integration mode, makes
    exactly the calls the standalone connect handler makes, in the same order,
    and leaves the transport as it is. *)
Theorem onMqttConnect_same_calls_as_onAsyncConnect (HAS : bool) (e : Env) (sp : bool)
    (this : MqttTransport) :
  trace (onMqttConnect HAS e this) = trace (onAsyncConnect HAS e sp this) /\
  state_of (onMqttConnect HAS e this) = this.
Proof. rewrite onMqttConnect_eq, onAsyncConnect_eq. split; reflexivity. Qed.

(** X3. A birth message that cannot be sent is lost: on a connect
    notification while the attached [AsyncMqttClient] is not connected (and no
    [PubSubClient] is attached) the transport still asks the client to
    subscribe, publishes nothing, and keeps no record that a birth message is
    owed. *)
Theorem onMqttConnect_while_disconnected (HAS : bool) (e : Env) (this : MqttTransport)
    (c : AsyncMqttClient) :
  asyncClient_ this = Some c -> pubSubClient_ this = None ->
  async_connected e c = false ->
  onMqttConnect HAS e this =
  (tt, this, [AsyncSubscribe c (cmdTopic_ this) (qos (config_ this))]).
Proof.
  intros Hc Hp Hconn. rewrite onMqttConnect_eq, subscribeToCommandTopic_eq.
  rewrite publishBirth_eq, mqttPublish_eq. unfold live. rewrite Hc, Hp, Hconn.
  destruct HAS, (enableStatus (config_ this)); reflexivity.
Qed.

Lemma onMqttConnect_while_disconnected_witness :
  onMqttConnect true (example_env 100 false) example_transport =
  (tt, example_transport, [AsyncSubscribe 7 "espmole/test123/cmd" 1]).
Proof.
  apply (onMqttConnect_while_disconnected true (example_env 100 false)
           example_transport 7); reflexivity.
Defined.

(** ** Activation *)

Lemma buildTopics_trace (e : Env) (this : MqttTransport) :
  trace (buildTopics e this) = [].
Proof. rewrite buildTopics_pure. reflexivity. Qed.

Lemma attachTo_async_trace (e : Env) (client : AsyncMqttClient) (this : MqttTransport) :
  trace (attachTo_async e client this) =
  let this' := state_of (attachTo_async e client this) in
  if enableStatus (config_ this)
  then [AsyncSetWill client (statusTopic_ this') 1 (retainStatus (config_ this))
          (lwtPayload (config_ this))]
  else [].
Proof.
  cbv zeta. rewrite attachTo_async_state.
  unfold attachTo_async. rewrite !trace_bind.
  cbn [modify get trace state_of result fst snd app].
  rewrite buildTopics_trace. cbn [app].
  rewrite buildTopics_config.
  cbn [config_ set_standaloneMode set_ownsClient set_asyncClient].
  destruct (enableStatus (config_ this)); reflexivity.
Qed.

(** X4. [attachTo] for an [AsyncMqttClient] stores the client without owning
    it, puts the transport in integration mode, builds the topics and, when
    presence is enabled, registers the last will on the status topic at QoS 1.
    It makes no other call: it neither connects, nor subscribes, nor
    publishes. *)
Theorem attachTo_async_only_registers_will (e : Env) (client : AsyncMqttClient)
    (this : MqttTransport) :
  let r := attachTo_async e client this in
  asyncClient_ (state_of r) = Some client /\
  ownsClient_ (state_of r) = false /\
  standaloneMode_ (state_of r) = false /\
  state_of r = state_of (buildTopics e (state_of r)) /\
  trace r =
    if enableStatus (config_ this)
    then [AsyncSetWill client (statusTopic_ (state_of r)) 1
            (retainStatus (config_ this)) (lwtPayload (config_ this))]
    else [].
Proof.
  intros r. subst r. rewrite attachTo_async_trace. cbv zeta.
  rewrite attachTo_async_state.
  destruct (buildTopics_frame e (set_standaloneMode false (set_ownsClient false
              (set_asyncClient (Some client) this)))) as (Hm & Ho & Ha & _ & _).
  rewrite Hm, Ho, Ha.
  repeat split. rewrite buildTopics_idempotent. reflexivity.
Qed.

(** X5. Where PubSubClient support is not compiled in, [attachTo] for a
    [PubSubClient] does nothing at all, so a freshly constructed transport
    stays without topics: no inbound message with a non-empty topic ever
    reaches the dispatcher, and nothing can be sent. *)
Theorem attachTo_pubsub_not_compiled_in (e e' : Env) (d : option Dispatcher)
    (client : option PubSubClient) (topic : string) (payload : list byte)
    (len : nat) :
  c_str topic <> "" ->
  let this' := state_of (attachTo_pubsub false e client (construct d)) in
  this' = construct d /\
  trace (attachTo_pubsub false e client (construct d)) = [] /\
  trace (handleMessage false e' topic payload len this') = [] /\
  connected false e' this' = false /\
  send false e' PEER_MQTT payload len this' = (false, this', []).
Proof.
  intros Ht this'. subst this'. cbn [attachTo_pubsub ret state_of trace fst snd].
  split; [reflexivity|]. split; [reflexivity|].
  split; [|split; [reflexivity|]].
  - rewrite handleMessage_route.
    destruct (route (construct d) topic) eqn:Hr; try reflexivity.
    apply route_OwnCommand in Hr. exfalso. apply Ht. exact Hr.
  - unfold send, bind at 1, get. now rewrite mqttPublish_no_client.
Qed.

Lemma attachTo_pubsub_not_compiled_in_witness :
  trace (handleMessage false (example_env 10 true) "espmole/DEADBEEF001A/cmd"
           (list_byte_of_string "ping") 4
           (state_of (attachTo_pubsub false (example_env 0 true) (Some 5)
                        (construct (Some 1))))) = [].
Proof.
  apply (attachTo_pubsub_not_compiled_in (example_env 0 true) (example_env 10 true)
           (Some 1) (Some 5) "espmole/DEADBEEF001A/cmd" (list_byte_of_string "ping") 4).
  discriminate.
Defined.

(** X6. Where PubSubClient support is compiled in, [attachTo] for a connected
    [PubSubClient], on a transport without [AsyncMqttClient], builds the
    topics, subscribes to the command topic at once and then, when presence is
    enabled, publishes the birth payload to the status topic with the
    configured retain flag; no last will is registered. *)
Theorem attachTo_pubsub_subscribes_and_births (e : Env) (p : PubSubClient)
    (this : MqttTransport) :
  asyncClient_ this = None -> pubsub_connected e p = true ->
  let r := attachTo_pubsub true e (Some p) this in
  pubSubClient_ (state_of r) = Some p /\
  ownsClient_ (state_of r) = false /\
  standaloneMode_ (state_of r) = false /\
  trace r =
    PubSubSubscribe p (cmdTopic_ (state_of r)) ::
    if enableStatus (config_ this)
    then [PubSubPublish p (statusTopic_ (state_of r))
            (list_byte_of_string (birthPayload (config_ this)))
            (strlen (birthPayload (config_ this))) (retainStatus (config_ this))]
    else [].
Proof.
  intros Ha Hconn r. subst r. rewrite attachTo_pubsub_state.
  set (this' := state_of (buildTopics e (set_standaloneMode false
                  (set_ownsClient false (set_pubSubClient (Some p) this))))).
  destruct (buildTopics_frame e (set_standaloneMode false (set_ownsClient false
              (set_pubSubClient (Some p) this)))) as (Hm & Ho & Ha' & Hp & Hc).
  fold this' in Hm, Ho, Ha', Hp, Hc.
  cbn [standaloneMode_ ownsClient_ asyncClient_ pubSubClient_ config_
       set_standaloneMode set_ownsClient set_pubSubClient] in Hm, Ho, Ha', Hp, Hc.
  split; [exact Hp|]. split; [exact Ho|]. split; [exact Hm|].
  unfold attachTo_pubsub. rewrite !trace_bind.
  cbn [modify trace state_of result fst snd app].
  rewrite buildTopics_trace. fold this'. cbn [app].
  rewrite (subscribeToCommandTopic_state true e).
  rewrite subscribeToCommandTopic_eq, publishBirth_eq, mqttPublish_eq.
  unfold live. rewrite Ha', Ha, Hp, Hconn, Hc.
  destruct (enableStatus (config_ this)); reflexivity.
Qed.

Lemma attachTo_pubsub_subscribes_and_births_witness :
  trace (attachTo_pubsub true (example_env 0 true) (Some 5) (construct (Some 1))) =
  [PubSubSubscribe 5 "espmole/DEADBEEF001A/cmd";
   PubSubPublish 5 "espmole/DEADBEEF001A/status" (list_byte_of_string "online") 6 true].
Proof.
  apply (attachTo_pubsub_subscribes_and_births (example_env 0 true) 5
           (construct (Some 1))); reflexivity.
Defined.

(** ** Standalone activation and reconnection *)

Lemma begin_state_fields (e : Env) (this : MqttTransport) (host : string) :
  broker (config_ this) = Some host ->
  let this' := state_of (begin e this) in
  standaloneMode_ this' = true /\
  asyncClient_ this' = Some (new_AsyncMqttClient e) /\
  ownsClient_ this' = true /\
  lastReconnectAttempt_ this' = lastReconnectAttempt_ this /\
  config_ this' = config_ this.
Proof.
  intros Hb. rewrite begin_eq. cbv zeta. rewrite Hb.
  rewrite buildTopics_eq, buildDeviceId_eq.
  destruct (standaloneMode_ this) eqn:Hm; repeat split; exact Hm.
Qed.

(** X7. With a broker address, [begin] creates a client it owns, and every
    call that configures it (server, client identifier, the last will at
    QoS 1 on the status topic when presence is enabled, the three handlers)
    comes before the connect attempt, which is the last call and the only
    one. *)
Theorem begin_configures_before_connecting (e : Env) (this : MqttTransport)
    (host : string) :
  broker (config_ this) = Some host ->
  let r := begin e this in
  let c := new_AsyncMqttClient e in
  asyncClient_ (state_of r) = Some c /\ ownsClient_ (state_of r) = true /\
  exists pre,
    trace r = (AsyncNew c :: pre ++ [AsyncConnect c])%list /\
    connect_attempts pre = 0 /\
    In (AsyncSetServer c host (port (config_ this))) pre /\
    In (AsyncOnConnect c) pre /\ In (AsyncOnDisconnect c) pre /\
    In (AsyncOnMessage c) pre /\
    (enableStatus (config_ this) = true ->
     In (AsyncSetWill c (statusTopic_ (state_of r)) 1 (retainStatus (config_ this))
           (lwtPayload (config_ this))) pre).
Proof.
  intros Hb r c.
  destruct (begin_state_fields e this host Hb) as (_ & Ha & Ho & _ & _).
  split; [exact Ha|]. split; [exact Ho|].
  subst r. rewrite begin_eq. cbv zeta. rewrite Hb.
  cbn [trace state_of fst snd statusTopic_ set_ownsClient set_asyncClient].
  fold c.
  set (this1 := state_of (buildTopics e
                  (if standaloneMode_ this then this else set_standaloneMode true this))).
  exists ([AsyncSetServer c host (port (config_ this))] ++
          match username (config_ this) with
          | Some user => [AsyncSetCredentials c user (password (config_ this))]
          | None => []
          end ++
          [AsyncSetClientId c match clientId (config_ this) with
                              | Some id => id
                              | None => deviceId_ this1
                              end] ++
          (if enableStatus (config_ this)
           then [AsyncSetWill c (statusTopic_ this1) 1 (retainStatus (config_ this))
                   (lwtPayload (config_ this))]
           else []) ++
          [AsyncOnConnect c; AsyncOnDisconnect c; AsyncOnMessage c])%list.
  destruct (username (config_ this)), (enableStatus (config_ this));
    cbn [app]; (split; [reflexivity|]);
    unfold connect_attempts; cbn [filter is_connect List.length];
    repeat split; try (intros; discriminate); cbn [In]; intuition auto.
Qed.

Lemma begin_configures_before_connecting_witness :
  asyncClient_ (state_of (begin (example_env 0 false)
                            (construct_with_config (Some 1) example_config))) = Some 7.
Proof.
  apply (begin_configures_before_connecting (example_env 0 false)
           (construct_with_config (Some 1) example_config) "192.168.1.100").
  reflexivity.
Defined.

(** X8. [begin] hands credentials to the client only when a user name is
    configured: a password configured without user name is never passed on.
    The client identifier it sets is the configured one, or the device
    identifier when none is configured. *)
Theorem begin_credentials_need_username (e : Env) (this : MqttTransport)
    (host : string) :
  broker (config_ this) = Some host ->
  let r := begin e this in
  let c := new_AsyncMqttClient e in
  (username (config_ this) = None ->
   existsb (fun ev => match ev with
                      | AsyncSetCredentials _ _ _ => true
                      | _ => false
                      end) (trace r) = false) /\
  (forall user, username (config_ this) = Some user ->
                In (AsyncSetCredentials c user (password (config_ this))) (trace r)) /\
  In (AsyncSetClientId c match clientId (config_ this) with
                         | Some id => id
                         | None => deviceId_ (state_of r)
                         end) (trace r).
Proof.
  intros Hb r c. subst r. rewrite begin_eq. cbv zeta. rewrite Hb.
  cbn [trace state_of fst snd deviceId_ set_ownsClient set_asyncClient]. fold c.
  destruct (username (config_ this)), (clientId (config_ this)),
    (enableStatus (config_ this)); cbn [app existsb orb In];
    repeat split; intros; try discriminate; try reflexivity;
    try (match goal with H : Some _ = Some _ |- _ => injection H as <- end);
    intuition auto.
Qed.

Lemma begin_credentials_need_username_witness :
  existsb (fun ev => match ev with
                     | AsyncSetCredentials _ _ _ => true
                     | _ => false
                     end)
    (trace (begin (example_env 0 false)
              (construct_with_config (Some 1) example_config))) = false.
Proof.
  apply (begin_credentials_need_username (example_env 0 false)
           (construct_with_config (Some 1) example_config) "192.168.1.100");
    reflexivity.
Defined.

Lemma millis_range (e : Env) : (0 <= millis e < UINT32_MODULUS)%Z.
Proof. unfold millis. apply Z.mod_pos_bound. reflexivity. Qed.

(** X9. The connect attempt made by [begin] is not recorded as a reconnect
    attempt.  On a freshly constructed standalone transport the first [poll]
    after [begin] that finds the client still not connected asks it to
    connect again as soon as the millisecond counter has reached the
    reconnect interval, however short the time since [begin]. *)
Theorem first_poll_after_begin_reconnects (e1 e2 : Env) (d : option Dispatcher)
    (cfg : MqttConfig) (host : string) :
  broker cfg = Some host ->
  async_connected e2 (new_AsyncMqttClient e1) = false ->
  (reconnectInterval cfg <= millis e2)%Z ->
  let this := state_of (begin e1 (construct_with_config d cfg)) in
  lastReconnectAttempt_ this = 0%Z /\
  trace (poll e2 this) = [AsyncConnect (new_AsyncMqttClient e1)] /\
  lastReconnectAttempt_ (state_of (poll e2 this)) = millis e2.
Proof.
  intros Hb Hconn Hdue this.
  destruct (begin_state_fields e1 (construct_with_config d cfg) host Hb)
    as (Hm & Ha & _ & Hl & Hc).
  fold this in Hm, Ha, Hl, Hc. cbn in Hl, Hc.
  split; [exact Hl|].
  apply (poll_reconnects_when_due e2 this (new_AsyncMqttClient e1) Hm Ha Hconn).
  rewrite Hl, Hc, Z.sub_0_r, Z.mod_small by apply millis_range. exact Hdue.
Qed.

Lemma first_poll_after_begin_reconnects_witness :
  trace (poll (example_env 5001 false)
           (state_of (begin (example_env 5000 false)
                        (construct_with_config (Some 1) example_config)))) =
  [AsyncConnect 7].
Proof.
  apply (first_poll_after_begin_reconnects (example_env 5000 false)
           (example_env 5001 false) (Some 1) example_config "192.168.1.100").
  - reflexivity.
  - reflexivity.
  - vm_compute. discriminate.
Defined.

(** X10. Once at least the reconnect interval (and less than 2^32 ms) has
    passed since the recorded attempt, a [poll] of a standalone transport
    whose client is not connected asks it to connect, exactly once, and
    records the time; this holds across a wrap of the millisecond counter. *)
Theorem poll_retries_after_interval (e1 e2 : Env) (this : MqttTransport)
    (c : AsyncMqttClient) :
  standaloneMode_ this = true -> asyncClient_ this = Some c ->
  async_connected e2 c = false ->
  lastReconnectAttempt_ this = millis e1 ->
  (reconnectInterval (config_ this) <= clock e2 - clock e1 < UINT32_MODULUS)%Z ->
  (0 <= reconnectInterval (config_ this))%Z ->
  trace (poll e2 this) = [AsyncConnect c] /\
  lastReconnectAttempt_ (state_of (poll e2 this)) = millis e2.
Proof.
  intros Hm Ha Hconn Hl Hdue Hpos.
  apply (poll_reconnects_when_due e2 this c Hm Ha Hconn).
  rewrite Hl, elapsed_wraparound_safe by lia. lia.
Qed.

Lemma poll_retries_after_interval_witness :
  trace (poll (example_env (2 ^ 32 + 4990) false)
           (set_lastReconnectAttempt (millis (example_env (2 ^ 32 - 10) false))
              example_transport)) = [AsyncConnect 7].
Proof.
  apply (poll_retries_after_interval (example_env (2 ^ 32 - 10) false)
           (example_env (2 ^ 32 + 4990) false)
           (set_lastReconnectAttempt (millis (example_env (2 ^ 32 - 10) false))
              example_transport) 7).
  - reflexivity.
  - reflexivity.
  - reflexivity.
  - reflexivity.
  - split; vm_compute; [discriminate | reflexivity].
  - vm_compute. discriminate.
Defined.

(** X11. [poll] leaves a transport in integration mode alone, whatever client
    is attached and whether or not it is connected, and it leaves a connected
    standalone client alone: no call is made and nothing changes. *)
Theorem poll_idle (e : Env) (this : MqttTransport) :
  standaloneMode_ this = false \/
  (exists c, asyncClient_ this = Some c /\ async_connected e c = true) ->
  poll e this = (tt, this, []).
Proof.
  intros [Hm | (c & Ha & Hconn)]; rewrite poll_eq.
  - rewrite Hm. reflexivity.
  - rewrite Ha, Hconn. destruct (standaloneMode_ this); reflexivity.
Qed.

Lemma poll_idle_witness :
  poll (example_env 60000 false)
    (state_of (attachTo_async (example_env 0 false) 9 (construct (Some 1)))) =
  (tt, state_of (attachTo_async (example_env 0 false) 9 (construct (Some 1))), []).
Proof.
  apply poll_idle. left. reflexivity.
Defined.

(** ** More on the topic namespace *)

Lemma buildTopics_fields (e : Env) (this : MqttTransport) :
  let this' := state_of (buildTopics e this) in
  let fmt suffix :=
    snprintf TOPIC_MAX_LEN
      (topic_format (base_of (config_ this)) (deviceId_ this') suffix) in
  deviceId_ this' = deviceId_ (state_of (buildDeviceId e this)) /\
  cmdTopic_ this' = fmt "/cmd" /\ respTopic_ this' = fmt "/resp" /\
  statusTopic_ this' = fmt "/status" /\ eventTopic_ this' = fmt "/event".
Proof. rewrite buildTopics_eq. repeat split. Qed.

Lemma deviceId_resolved (e : Env) (this : MqttTransport) :
  deviceId_ (state_of (buildTopics e this)) =
  match deviceId (config_ this) with
  | Some id => take (DEVICE_ID_MAX_LEN - 1) (c_str id)
  | None => mac_hex e
  end.
Proof.
  rewrite buildTopics_eq, buildDeviceId_eq. cbv zeta.
  unfold state_of. cbn [fst snd deviceId_ set_eventTopic set_statusTopic
                        set_respTopic set_cmdTopic set_deviceId].
  destruct (deviceId (config_ this)); [reflexivity|].
  unfold snprintf. apply take_all. rewrite mac_hex_length.
  unfold DEVICE_ID_MAX_LEN. lia.
Qed.

Lemma deviceId_no_nul (e : Env) (this : MqttTransport) :
  no_nul (deviceId_ (state_of (buildTopics e this))).
Proof.
  rewrite deviceId_resolved. destruct (deviceId (config_ this)).
  - apply no_nul_take, no_nul_c_str.
  - apply mac_hex_no_nul.
Qed.

(** X12. Whatever the configuration, after [buildTopics] the device
    identifier has at most [DEVICE_ID_MAX_LEN - 1] characters (a longer
    configured identifier is cut to its first 31 characters), each topic has
    at most [TOPIC_MAX_LEN - 1] characters, and none of them holds a NUL. *)
Theorem namespace_always_bounded (e : Env) (this : MqttTransport) :
  let this' := state_of (buildTopics e this) in
  String.length (deviceId_ this') <= DEVICE_ID_MAX_LEN - 1 /\
  no_nul (deviceId_ this') /\
  (forall id, deviceId (config_ this) = Some id ->
              deviceId_ this' = take (DEVICE_ID_MAX_LEN - 1) (c_str id)) /\
  (String.length (cmdTopic_ this') <= TOPIC_MAX_LEN - 1 /\
   String.length (respTopic_ this') <= TOPIC_MAX_LEN - 1 /\
   String.length (statusTopic_ this') <= TOPIC_MAX_LEN - 1 /\
   String.length (eventTopic_ this') <= TOPIC_MAX_LEN - 1) /\
  (no_nul (cmdTopic_ this') /\ no_nul (respTopic_ this') /\
   no_nul (statusTopic_ this') /\ no_nul (eventTopic_ this')).
Proof.
  intros this'. subst this'.
  split.
  { rewrite deviceId_resolved. destruct (deviceId (config_ this)).
    - apply length_take.
    - rewrite mac_hex_length. unfold DEVICE_ID_MAX_LEN. lia. }
  split; [apply deviceId_no_nul|].
  split; [intros id Hid; now rewrite deviceId_resolved, Hid|].
  split; [apply buildTopics_bounded | apply buildTopics_no_nul].
Qed.






Lemma take_app_le (n : nat) (p s : string) :
  n <= String.length p -> take n (p ++ s) = take n p.
Proof.
  revert p. induction n as [|n IH]; intros [|c p] H; simpl in *; try reflexivity.
  - lia.
  - rewrite IH by lia. reflexivity.
Qed.

Lemma formatted_topic_cut (base id suffix : string) :
  TOPIC_MAX_LEN - 1 <= String.length (c_str base) + String.length (c_str id) + 2 ->
  snprintf TOPIC_MAX_LEN (topic_format base id (String "/" suffix)) =
  take (TOPIC_MAX_LEN - 1) (c_str base ++ "/" ++ c_str id ++ "/").
Proof.
  intros H. unfold snprintf, topic_format.
  replace (c_str base ++ "/" ++ c_str id ++ String "/" suffix)
    with ((c_str base ++ "/" ++ c_str id ++ "/") ++ suffix).
  - apply take_app_le. rewrite !string_app_length. simpl String.length. lia.
  - rewrite !string_app_assoc. reflexivity.
Qed.

(** X14. Truncation makes the topics collide.  When the base, the separator,
    the device identifier and one more separator already fill the
    [TOPIC_MAX_LEN - 1] characters of a topic, [buildTopics] stores the same
    string four times; a message on the response topic is then taken for a
    command. *)
Theorem truncated_topics_collide (e : Env) (this : MqttTransport) :
  let this' := state_of (buildTopics e this) in
  TOPIC_MAX_LEN - 1 <=
    String.length (c_str (base_of (config_ this))) + String.length (deviceId_ this') + 2 ->
  respTopic_ this' = cmdTopic_ this' /\
  statusTopic_ this' = cmdTopic_ this' /\
  eventTopic_ this' = cmdTopic_ this' /\
  route this' (respTopic_ this') = OwnCommand.
Proof.
  intros this' H.
  destruct (buildTopics_fields e this) as (_ & Hc & Hr & Hs & He).
  fold this' in Hc, Hr, Hs, He. cbv zeta in Hc, Hr, Hs, He.
  assert (Hid : c_str (deviceId_ this') = deviceId_ this') by apply deviceId_no_nul.
  rewrite <- Hid in H.
  rewrite (formatted_topic_cut _ _ "cmd" H) in Hc.
  rewrite (formatted_topic_cut _ _ "resp" H) in Hr.
  rewrite (formatted_topic_cut _ _ "status" H) in Hs.
  rewrite (formatted_topic_cut _ _ "event" H) in He.
  rewrite Hc, Hr, Hs, He. repeat split.
  apply route_OwnCommand. now rewrite Hc.
Qed.

Lemma truncated_topics_collide_witness :
  let cfg := {| broker := None; port := 1883; username := None; password := None;
                clientId := None;
                baseTopic := Some "building-7/floor-3/room-12/rack-b/automation/espmole";
                deviceId := Some "temperature-sensor-north-wall";
                enableStatus := true; birthPayload := "online";
                lwtPayload := Some "offline"; retainStatus := true;
                reconnectInterval := 5000; qos := 0 |} in
  let this' := state_of (buildTopics (example_env 0 false)
                           (construct_with_config (Some 1) cfg)) in
  respTopic_ this' = cmdTopic_ this' /\
  statusTopic_ this' = cmdTopic_ this' /\
  eventTopic_ this' = cmdTopic_ this' /\
  route this' (respTopic_ this') = OwnCommand.
Proof.
  intros cfg this'.
  apply (truncated_topics_collide (example_env 0 false)
           (construct_with_config (Some 1) cfg)).
  vm_compute. lia.
Defined.

(** ** Routing inside a built namespace *)

Lemma string_app_inv_tail (a b c : string) : a ++ c = b ++ c -> a = b.
Proof.
  revert b. induction a as [|x a IH]; intros [|y b] H; cbn [append] in H.
  - reflexivity.
  - apply (f_equal String.length) in H. cbn [String.length] in H.
    rewrite string_app_length in H. lia.
  - apply (f_equal String.length) in H. cbn [String.length] in H.
    rewrite string_app_length in H. lia.
  - injection H as -> H. f_equal. now apply IH.
Qed.

Lemma buildTopics_exact (e : Env) (this : MqttTransport) (base id : string) :
  base_of (config_ this) = base -> no_nul base ->
  deviceId_ (state_of (buildTopics e this)) = id ->
  String.length base + String.length id + 8 <= TOPIC_MAX_LEN - 1 ->
  let this' := state_of (buildTopics e this) in
  cmdTopic_ this' = base ++ "/" ++ id ++ "/cmd" /\
  respTopic_ this' = base ++ "/" ++ id ++ "/resp" /\
  statusTopic_ this' = base ++ "/" ++ id ++ "/status" /\
  eventTopic_ this' = base ++ "/" ++ id ++ "/event".
Proof.
  intros Hbase Hb Hid Hlen this'.
  assert (Hn : no_nul id) by (rewrite <- Hid; apply deviceId_no_nul).
  destruct (buildTopics_fields e this) as (_ & Hc & Hr & Hs & He).
  fold this' in Hc, Hr, Hs, He. cbv zeta in Hc, Hr, Hs, He.
  fold this' in Hid. rewrite Hid, Hbase in Hc, Hr, Hs, He.
  unfold TOPIC_MAX_LEN in Hlen.
  rewrite formatted_topic_fits in Hc, Hr, Hs, He
    by (try assumption; unfold TOPIC_MAX_LEN; simpl String.length; lia).
  auto.
Qed.

Lemma in_namespace (base id suffix : string) :
  begins_with (base ++ "/") (base ++ "/" ++ id ++ suffix).
Proof. exists (id ++ suffix). now rewrite string_app_assoc. Qed.

(** X15. In a namespace built within the length limits the device takes its
    command topic for a command and absorbs its own response, status and
    event topics: a message on one of those three is reported as handled,
    reaches neither the dispatcher nor the user callback, and causes no
    publish. *)
Theorem own_topics_routing (HAS : bool) (e e' : Env) (this : MqttTransport)
    (payload : list byte) (len : nat) :
  let this' := state_of (buildTopics e this) in
  no_nul (base_of (config_ this)) ->
  String.length (base_of (config_ this)) + String.length (deviceId_ this') + 8
    <= TOPIC_MAX_LEN - 1 ->
  route this' (cmdTopic_ this') = OwnCommand /\
  route this' (respTopic_ this') = OwnOther /\
  route this' (statusTopic_ this') = OwnOther /\
  route this' (eventTopic_ this') = OwnOther /\
  (forall topic,
     topic = respTopic_ this' \/ topic = statusTopic_ this' \/
     topic = eventTopic_ this' ->
     handleMessage HAS e' topic payload len this' = (true, this', [])).
Proof.
  intros this' Hb Hlen.
  destruct (buildTopics_exact e this _ _ eq_refl Hb eq_refl Hlen)
    as (Hc & Hr & Hs & He).
  fold this' in Hc, Hr, Hs, He.
  assert (Hn : no_nul (deviceId_ this')) by apply deviceId_no_nul.
  assert (Hcfg : config_ this' = config_ this) by apply buildTopics_config.
  assert (Hother : forall suffix,
            suffix <> "/cmd" -> no_nul suffix ->
            route this' (base_of (config_ this) ++ "/" ++ deviceId_ this' ++ suffix)
            = OwnOther).
  { intros suffix Hne Hs0. apply route_OwnOther.
    assert (Ht : c_str (base_of (config_ this) ++ "/" ++ deviceId_ this' ++ suffix)
                 = base_of (config_ this) ++ "/" ++ deviceId_ this' ++ suffix).
    { repeat apply no_nul_app; try assumption; reflexivity. }
    assert (Hcc : c_str (cmdTopic_ this') = cmdTopic_ this')
      by apply (buildTopics_no_nul e this).
    rewrite Ht, Hcc, Hcfg, Hb, Hc. split; [apply in_namespace|].
    intros Heq. apply Hne.
    apply string_app_inv_head in Heq. cbn [append] in Heq.
    injection Heq as Heq. now apply string_app_inv_head in Heq. }
  assert (R1 : route this' (respTopic_ this') = OwnOther)
    by (rewrite Hr; apply Hother; [discriminate | reflexivity]).
  assert (R2 : route this' (statusTopic_ this') = OwnOther)
    by (rewrite Hs; apply Hother; [discriminate | reflexivity]).
  assert (R3 : route this' (eventTopic_ this') = OwnOther)
    by (rewrite He; apply Hother; [discriminate | reflexivity]).
  split; [now apply route_OwnCommand|].
  split; [exact R1|]. split; [exact R2|]. split; [exact R3|].
  intros topic [-> | [-> | ->]]; rewrite handleMessage_route;
    [rewrite R1 | rewrite R2 | rewrite R3]; reflexivity.
Qed.

Lemma own_topics_routing_witness :
  let this' := state_of (buildTopics (example_env 0 false)
                           (construct_with_config (Some 1) example_config)) in
  handleMessage true (example_env 10 true) "espmole/test123/resp"
    (list_byte_of_string "ok") 2 this' = (true, this', []).
Proof.
  intros this'.
  apply (own_topics_routing true (example_env 0 false) (example_env 10 true)
           (construct_with_config (Some 1) example_config)
           (list_byte_of_string "ok") 2).
  - reflexivity.
  - vm_compute. lia.
  - left. reflexivity.
Defined.

(** X16. Devices that share a base do not take each other's commands: when
    two namespaces are built within the length limits on the same base with
    different device identifiers, a message on the first device's command
    topic is absorbed by the second device, which reports it as handled
    without calling its dispatcher or its user callback. *)
Theorem other_device_command_absorbed (HAS : bool) (e1 e2 e' : Env)
    (this1 this2 : MqttTransport) (payload : list byte) (len : nat) :
  let dev1 := state_of (buildTopics e1 this1) in
  let dev2 := state_of (buildTopics e2 this2) in
  base_of (config_ this1) = base_of (config_ this2) ->
  no_nul (base_of (config_ this1)) ->
  deviceId_ dev1 <> deviceId_ dev2 ->
  String.length (base_of (config_ this1)) + String.length (deviceId_ dev1) + 8
    <= TOPIC_MAX_LEN - 1 ->
  String.length (base_of (config_ this1)) + String.length (deviceId_ dev2) + 8
    <= TOPIC_MAX_LEN - 1 ->
  cmdTopic_ dev1 <> cmdTopic_ dev2 /\
  route dev2 (cmdTopic_ dev1) = OwnOther /\
  handleMessage HAS e' (cmdTopic_ dev1) payload len dev2 = (true, dev2, []).
Proof.
  intros dev1 dev2 Hbase Hb Hne Hl1 Hl2.
  destruct (buildTopics_exact e1 this1 _ _ eq_refl Hb eq_refl Hl1) as (Hc1 & _).
  rewrite Hbase in Hb, Hl2.
  destruct (buildTopics_exact e2 this2 _ _ eq_refl Hb eq_refl Hl2) as (Hc2 & _).
  fold dev1 in Hc1. fold dev2 in Hc2. rewrite Hbase in Hc1.
  assert (Hdiff : cmdTopic_ dev1 <> cmdTopic_ dev2).
  { rewrite Hc1, Hc2. intros Heq. apply Hne.
    apply string_app_inv_head in Heq. cbn [append] in Heq.
    injection Heq as Heq. now apply string_app_inv_tail in Heq. }
  assert (Hroute : route dev2 (cmdTopic_ dev1) = OwnOther).
  { apply route_OwnOther.
    assert (N1 : c_str (cmdTopic_ dev1) = cmdTopic_ dev1)
      by apply (buildTopics_no_nul e1 this1).
    assert (N2 : c_str (cmdTopic_ dev2) = cmdTopic_ dev2)
      by apply (buildTopics_no_nul e2 this2).
    rewrite N1, N2. split; [|exact Hdiff].
    unfold dev2 at 1. rewrite buildTopics_config, Hb, Hc1. apply in_namespace. }
  split; [exact Hdiff|]. split; [exact Hroute|].
  rewrite handleMessage_route, Hroute. reflexivity.
Qed.

Lemma other_device_command_absorbed_witness :
  let dev2 := state_of (buildTopics (example_env 0 false)
                          (construct_with_config (Some 1) example_config)) in
  handleMessage true (example_env 10 true) "espmole/DEADBEEF001A/cmd"
    (list_byte_of_string "ping") 4 dev2 = (true, dev2, []).
Proof.
  intros dev2.
  apply (other_device_command_absorbed true (example_env 0 false) (example_env 0 false)
           (example_env 10 true) (construct None)
           (construct_with_config (Some 1) example_config)
           (list_byte_of_string "ping") 4).
  - reflexivity.
  - reflexivity.
  - discriminate.
  - vm_compute. lia.
  - vm_compute. lia.
Defined.

(** ** More on the outbound operations *)

(** X17. [broadcast] is the publish operation on the event topic with the
    configured QoS and retain off: through a connected [AsyncMqttClient] it
    publishes the data to the event topic and returns true, and on every path
    what it publishes goes to the event topic, non-retained, and the
    transport is unchanged. *)
Theorem broadcast_targets_event_topic (HAS : bool) (e : Env) (this : MqttTransport)
    (data : list byte) (len : nat) :
  broadcast HAS e data len this =
    mqttPublish HAS e (eventTopic_ this) data len (qos (config_ this)) false this /\
  state_of (broadcast HAS e data len this) = this /\
  (forall c, live (asyncClient_ this) (async_connected e) = Some c ->
     broadcast HAS e data len this =
       (true, this,
        [AsyncPublish c (eventTopic_ this) (qos (config_ this)) false data len])) /\
  (trace (broadcast HAS e data len this) = [] \/
   (exists c, trace (broadcast HAS e data len this) =
                [AsyncPublish c (eventTopic_ this) (qos (config_ this)) false data len]) \/
   (exists p, trace (broadcast HAS e data len this) =
                [PubSubPublish p (eventTopic_ this) data len false])).
Proof.
  assert (Hs : broadcast HAS e data len this =
               mqttPublish HAS e (eventTopic_ this) data len (qos (config_ this))
                 false this).
  { unfold broadcast, bind at 1, get.
    destruct (mqttPublish HAS e (eventTopic_ this) data len (qos (config_ this))
                false this) as [[b t] tr]. reflexivity. }
  split; [exact Hs|]. rewrite Hs, mqttPublish_eq.
  destruct (live (asyncClient_ this) (async_connected e)) as [c|].
  - split; [reflexivity|]. split.
    + intros c' Hc. injection Hc as <-. reflexivity.
    + right; left. now exists c.
  - split; [|split; [discriminate|]];
      destruct (if HAS then live (pubSubClient_ this) (pubsub_connected e) else None)
        as [p|]; try reflexivity; [right; right; now exists p | now left].
Qed.

Lemma broadcast_targets_event_topic_witness :
  broadcast true (example_env 0 true) (list_byte_of_string "tick") 4 example_transport =
  (true, example_transport,
   [AsyncPublish 7 "espmole/test123/event" 1 false (list_byte_of_string "tick") 4]).
Proof.
  apply (broadcast_targets_event_topic true (example_env 0 true) example_transport
           (list_byte_of_string "tick") 4).
  reflexivity.
Defined.

(** X18. [publish] and [connected] agree as long as at most one client is
    attached: when [connected] is true, [publish] makes exactly one publish
    call, on the caller's topic with the caller's payload and retain flag;
    when [connected] is false and not both kinds of client are attached,
    [publish] returns false and makes no call. *)
Theorem publish_follows_connected (HAS : bool) (e : Env) (this : MqttTransport)
    (topic : string) (payload : list byte) (len : nat) (q : Z) (retain : bool) :
  let r := publish HAS e topic payload len q retain this in
  (connected HAS e this = true ->
   (exists c, r = (true, this, [AsyncPublish c topic q retain payload len])) \/
   (exists p, r = (pubsub_publish e p topic payload len retain, this,
                   [PubSubPublish p topic payload len retain]))) /\
  (connected HAS e this = false ->
   asyncClient_ this = None \/ pubSubClient_ this = None \/ HAS = false ->
   r = (false, this, [])).
Proof.
  intros r. subst r. unfold publish. rewrite mqttPublish_eq. unfold connected, live.
  split.
  - intros Hc. destruct (asyncClient_ this) as [c|].
    + rewrite Hc. left. now exists c.
    + destruct HAS; [|discriminate].
      destruct (pubSubClient_ this) as [p|]; [|discriminate].
      rewrite Hc. right. now exists p.
  - intros Hc Hone. destruct (asyncClient_ this) as [c|].
    + rewrite Hc. destruct Hone as [H | [H | H]]; [discriminate | |].
      * rewrite H. destruct HAS; reflexivity.
      * rewrite H. reflexivity.
    + destruct HAS; [|reflexivity].
      destruct (pubSubClient_ this) as [p|]; [|reflexivity].
      rewrite Hc. reflexivity.
Qed.

Lemma publish_follows_connected_witness :
  publish true (example_env 0 false) "home/sensor/temp" (list_byte_of_string "21.5") 4
    0 false example_transport = (false, example_transport, []).
Proof.
  apply (publish_follows_connected true (example_env 0 false) example_transport
           "home/sensor/temp" (list_byte_of_string "21.5") 4 0 false).
  - reflexivity.
  - right; left. reflexivity.
Defined.

(** X19. With both kinds of client attached the two disagree: while the
    [AsyncMqttClient] is not connected, [connected] reports false without
    looking at the [PubSubClient], yet [publish] falls through to the
    connected [PubSubClient] and publishes there, dropping the QoS. *)
Theorem publish_falls_back_to_pubsub (e : Env) (this : MqttTransport)
    (a : AsyncMqttClient) (p : PubSubClient) (topic : string)
    (payload : list byte) (len : nat) (q : Z) (retain : bool) :
  asyncClient_ this = Some a -> pubSubClient_ this = Some p ->
  async_connected e a = false -> pubsub_connected e p = true ->
  connected true e this = false /\
  publish true e topic payload len q retain this =
    (pubsub_publish e p topic payload len retain, this,
     [PubSubPublish p topic payload len retain]).
Proof.
  intros Ha Hp Hac Hpc. unfold connected, publish.
  rewrite mqttPublish_eq. unfold live. rewrite Ha, Hp, Hac, Hpc.
  split; reflexivity.
Qed.

Lemma publish_falls_back_to_pubsub_witness :
  let e := {| clock := 0; macAddress := [xde; xad; xbe; xef; x00; x1a];
              new_AsyncMqttClient := 7;
              async_connected := fun _ => false;
              pubsub_connected := fun _ => true;
              pubsub_publish := fun _ _ _ _ _ => true;
              pubsub_subscribe := fun _ _ => true;
              ingest := example_ingest |} in
  let this := set_pubSubClient (Some 5) example_transport in
  connected true e this = false /\
  publish true e "home/sensor/temp" (list_byte_of_string "21.5") 4 1 false this =
    (true, this, [PubSubPublish 5 "home/sensor/temp" (list_byte_of_string "21.5") 4 false]).
Proof.
  intros e this.
  apply (publish_falls_back_to_pubsub e this 7 5 "home/sensor/temp"
           (list_byte_of_string "21.5") 4 1 false); reflexivity.
Defined.

(** ** Ownership of the client *)

(** X20. The destructor follows the ownership flag.  After [begin] with a
    broker address it disconnects and deletes the client that [begin]
    created; after [attachTo] it leaves the host's client alone; and after
    [begin] followed by [attachTo] it makes no call either, so the client
    created by [begin] is never deleted. *)
Theorem destructor_follows_ownership (e1 e2 : Env) (this : MqttTransport)
    (client : AsyncMqttClient) (host : string) :
  broker (config_ this) = Some host ->
  trace (destroy (state_of (begin e1 this))) =
    [AsyncDisconnect (new_AsyncMqttClient e1); AsyncDelete (new_AsyncMqttClient e1)] /\
  destroy (state_of (attachTo_async e2 client this)) =
    (tt, state_of (attachTo_async e2 client this), []) /\
  destroy (state_of (attachTo_async e2 client (state_of (begin e1 this)))) =
    (tt, state_of (attachTo_async e2 client (state_of (begin e1 this))), []).
Proof.
  intros Hb.
  assert (Hatt : forall t, ownsClient_ (state_of (attachTo_async e2 client t)) = false).
  { intros t. rewrite attachTo_async_state.
    destruct (buildTopics_frame e2 (set_standaloneMode false (set_ownsClient false
                (set_asyncClient (Some client) t)))) as (_ & Ho & _).
    exact Ho. }
  destruct (begin_state_fields e1 this host Hb) as (_ & Ha & Ho & _ & _).
  split; [|split].
  - rewrite (destroy_owned _ _ Ho Ha). reflexivity.
  - apply destroy_not_owned, Hatt.
  - apply destroy_not_owned, Hatt.
Qed.

Lemma destructor_follows_ownership_witness :
  trace (destroy example_transport) = [AsyncDisconnect 7; AsyncDelete 7].
Proof.
  apply (destructor_follows_ownership (example_env 0 false) (example_env 0 false)
           (construct_with_config (Some 1) example_config) 9 "192.168.1.100").
  reflexivity.
Defined.

(** ** What no sequence of calls changes or does *)

Lemma buildTopics_dispatcher (e : Env) (this : MqttTransport) :
  dispatcher_ (state_of (buildTopics e this)) = dispatcher_ this.
Proof. rewrite buildTopics_eq, buildDeviceId_eq. reflexivity. Qed.

Lemma exec_dispatcher (HAS : bool) (e : Env) (c : Call) (this : MqttTransport) :
  dispatcher_ (state_of (exec HAS e c this)) = dispatcher_ this.
Proof.
  destruct c; cbn [exec]; unfold discard; try step_bind.
  - rewrite begin_eq. cbv zeta.
    destruct (broker (config_ this)); cbn [state_of fst snd];
      cbn [dispatcher_ set_ownsClient set_asyncClient];
      rewrite buildTopics_dispatcher; destruct (standaloneMode_ this); reflexivity.
  - rewrite attachTo_async_state, buildTopics_dispatcher. reflexivity.
  - rewrite attachTo_pubsub_state. destruct HAS; [|reflexivity].
    rewrite buildTopics_dispatcher. reflexivity.
  - poll_cases e this; destruct (wasConnected_ this); reflexivity.
  - rewrite onAsyncConnect_state. reflexivity.
  - reflexivity.
  - rewrite onAsyncMessage_state. reflexivity.
  - rewrite onMqttConnect_state. reflexivity.
  - rewrite handleMessage_state. reflexivity.
  - unfold send. step_bind. rewrite mqttPublish_state. reflexivity.
  - unfold broadcast. step_bind. rewrite mqttPublish_state. reflexivity.
  - rewrite subscribe_state. reflexivity.
  - unfold publish. rewrite mqttPublish_state. reflexivity.
  - reflexivity.
Qed.

(** X21. The configuration and the dispatcher reference are fixed at
    construction: no sequence of calls on the transport (activations, polls,
    client callbacks, inbound messages, outbound operations) changes either
    of them. *)
Theorem config_and_dispatcher_fixed (HAS : bool) (calls : list (Env * Call))
    (this : MqttTransport) :
  config_ (state_of (run HAS calls this)) = config_ this /\
  dispatcher_ (state_of (run HAS calls this)) = dispatcher_ this.
Proof.
  split; [apply run_config|].
  revert this. induction calls as [|[e c] rest IH]; intros this.
  - reflexivity.
  - rewrite run_cons, IH. apply exec_dispatcher.
Qed.

(** [poll] writes [wasConnected_] and [lastReconnectAttempt_] only. *)
Lemma poll_frame (e : Env) (this : MqttTransport) {X : Type}
    (f : MqttTransport -> X) :
  (forall w t, f (set_wasConnected w t) = f t) ->
  (forall l t, f (set_lastReconnectAttempt l t) = f t) ->
  f (state_of (poll e this)) = f this.
Proof.
  intros Hw Hl. rewrite poll_eq.
  destruct (standaloneMode_ this); [|reflexivity].
  destruct (asyncClient_ this) as [c|]; [|reflexivity].
  destruct (async_connected e c); [reflexivity|].
  cbv zeta.
  destruct (Z.geb _ _), (wasConnected_ this); cbn [state_of fst snd];
    rewrite ?Hl, ?Hw; reflexivity.
Qed.

(** The members a call that is not an activation leaves alone. *)
Lemma exec_keeps_namespace (HAS : bool) (e : Env) (c : Call) (this : MqttTransport) :
  is_activation c = false ->
  let this' := state_of (exec HAS e c this) in
  cmdTopic_ this' = cmdTopic_ this /\ respTopic_ this' = respTopic_ this /\
  statusTopic_ this' = statusTopic_ this /\ eventTopic_ this' = eventTopic_ this /\
  deviceId_ this' = deviceId_ this /\
  asyncClient_ this' = asyncClient_ this /\ pubSubClient_ this' = pubSubClient_ this.
Proof.
  intros Hact.
  destruct c; try discriminate Hact; cbn [exec]; unfold discard; try step_bind.
  - split; [apply (poll_frame e this cmdTopic_); reflexivity|].
    split; [apply (poll_frame e this respTopic_); reflexivity|].
    split; [apply (poll_frame e this statusTopic_); reflexivity|].
    split; [apply (poll_frame e this eventTopic_); reflexivity|].
    split; [apply (poll_frame e this deviceId_); reflexivity|].
    split; [apply (poll_frame e this asyncClient_); reflexivity|].
    apply (poll_frame e this pubSubClient_); reflexivity.
  - rewrite onAsyncConnect_state. repeat split.
  - repeat split.
  - rewrite onAsyncMessage_state. repeat split.
  - rewrite onMqttConnect_state. repeat split.
  - rewrite handleMessage_state. repeat split.
  - unfold send. step_bind. rewrite mqttPublish_state. repeat split.
  - unfold broadcast. step_bind. rewrite mqttPublish_state. repeat split.
  - rewrite subscribe_state. repeat split.
  - unfold publish. rewrite mqttPublish_state. repeat split.
  - repeat split.
Qed.

Lemma route_depends_on (this1 this2 : MqttTransport) (topic : string) :
  cmdTopic_ this1 = cmdTopic_ this2 -> config_ this1 = config_ this2 ->
  route this1 topic = route this2 topic.
Proof.
  intros Hc Hcfg. unfold route, isMoleTopic. now rewrite Hc, Hcfg.
Qed.

(** X22. Between activations the namespace stands still: a sequence of
    calls without [begin] and [attachTo] changes none of the four topics, the
    device identifier or the client references, so every topic is classified
    after it as it was before. *)
Theorem namespace_stable_between_activations (HAS : bool) (calls : list (Env * Call))
    (this : MqttTransport) :
  forallb (fun ec => negb (is_activation (snd ec))) calls = true ->
  let this' := state_of (run HAS calls this) in
  cmdTopic_ this' = cmdTopic_ this /\ respTopic_ this' = respTopic_ this /\
  statusTopic_ this' = statusTopic_ this /\ eventTopic_ this' = eventTopic_ this /\
  deviceId_ this' = deviceId_ this /\
  asyncClient_ this' = asyncClient_ this /\ pubSubClient_ this' = pubSubClient_ this /\
  forall topic, route this' topic = route this topic.
Proof.
  revert this. induction calls as [|[e c] rest IH]; intros this Hq this'.
  - repeat split.
  - cbn [forallb snd] in Hq. apply andb_true_iff in Hq. destruct Hq as [Hc Hrest].
    apply negb_true_iff in Hc.
    subst this'. rewrite run_cons.
    destruct (IH (state_of (exec HAS e c this)) Hrest)
      as (I1 & I2 & I3 & I4 & I5 & I6 & I7 & I8).
    destruct (exec_keeps_namespace HAS e c this Hc)
      as (E1 & E2 & E3 & E4 & E5 & E6 & E7).
    rewrite I1, I2, I3, I4, I5, I6, I7, E1, E2, E3, E4, E5, E6, E7.
    repeat split. intros topic. rewrite I8.
    apply route_depends_on; [exact E1 | apply exec_mode].
Qed.

Lemma namespace_stable_between_activations_witness :
  let calls := [(example_env 6000 false, CallPoll);
                (example_env 6001 true, CallOnAsyncConnect false);
                (example_env 6002 true,
                 CallHandleMessage "espmole/test123/cmd" (list_byte_of_string "ping") 4);
                (example_env 6003 true, CallSetUserCallback (Some 3));
                (example_env 6004 false, CallOnAsyncDisconnect 0)] in
  cmdTopic_ (state_of (run true calls example_transport)) = "espmole/test123/cmd".
Proof.
  intros calls.
  apply (namespace_stable_between_activations true calls example_transport).
  reflexivity.
Defined.

(** ** What integration mode never does to the host's client *)

Lemma emits_only_ret {A : Type} (P : Event -> bool) (a : A) : emits_only P (ret a).
Proof. intros this. reflexivity. Qed.

Lemma emits_only_get (P : Event -> bool) : emits_only P get.
Proof. intros this. reflexivity. Qed.

Lemma emits_only_modify (P : Event -> bool) (f : MqttTransport -> MqttTransport) :
  emits_only P (modify f).
Proof. intros this. reflexivity. Qed.

Lemma emits_only_emit (P : Event -> bool) (ev : Event) :
  P ev = true -> emits_only P (emit ev).
Proof. intros H this. cbn. now rewrite H. Qed.

Lemma emits_only_bind {A B : Type} (P : Event -> bool) (m : M A) (k : A -> M B) :
  emits_only P m -> (forall a, emits_only P (k a)) -> emits_only P (bind m k).
Proof.
  intros Hm Hk this. rewrite trace_bind, forallb_app, Hm, Hk. reflexivity.
Qed.

Ltac quiet_step :=
  first
    [ apply emits_only_ret
    | apply emits_only_get
    | apply emits_only_modify
    | apply emits_only_emit; reflexivity
    | apply emits_only_bind; [|intros]
    | match goal with
      | |- emits_only _ (match ?x with _ => _ end) => destruct x
      end
    | assumption ].

Lemma mqttPublish_quiet (HAS : bool) (e : Env) (topic : string) (payload : list byte)
    (len : nat) (q : Z) (retain : bool) :
  emits_only not_lifecycle (mqttPublish HAS e topic payload len q retain).
Proof. unfold mqttPublish. repeat quiet_step. Qed.

Lemma subscribe_quiet (HAS : bool) (e : Env) (topic : string) (q : Z) :
  emits_only not_lifecycle (subscribe HAS e topic q).
Proof. unfold subscribe. repeat quiet_step. Qed.

Lemma subscribeToCommandTopic_quiet (HAS : bool) :
  emits_only not_lifecycle (subscribeToCommandTopic HAS).
Proof. unfold subscribeToCommandTopic. repeat quiet_step. Qed.

Lemma publishBirth_quiet (HAS : bool) (e : Env) :
  emits_only not_lifecycle (publishBirth HAS e).
Proof.
  unfold publishBirth. pose proof (mqttPublish_quiet HAS e) as Hp.
  repeat first [quiet_step | apply Hp].
Qed.

Lemma processCommand_quiet (HAS : bool) (e : Env) (payload : list byte) (len : nat) :
  emits_only not_lifecycle (processCommand HAS e payload len).
Proof.
  unfold processCommand. pose proof (mqttPublish_quiet HAS e) as Hp.
  repeat first [quiet_step | apply Hp].
Qed.

Lemma handleMessage_quiet (HAS : bool) (e : Env) (topic : string)
    (payload : list byte) (len : nat) :
  emits_only not_lifecycle (handleMessage HAS e topic payload len).
Proof.
  unfold handleMessage. pose proof (processCommand_quiet HAS e payload len) as Hp.
  repeat first [quiet_step | apply Hp].
Qed.

Lemma buildTopics_quiet (e : Env) : emits_only not_lifecycle (buildTopics e).
Proof. intros this. now rewrite buildTopics_trace. Qed.

Lemma attachTo_async_quiet (e : Env) (client : AsyncMqttClient) :
  emits_only not_lifecycle (attachTo_async e client).
Proof.
  unfold attachTo_async, when. pose proof (buildTopics_quiet e) as Hb.
  repeat first [quiet_step | apply Hb].
Qed.

Lemma onMqttConnect_quiet (HAS : bool) (e : Env) :
  emits_only not_lifecycle (onMqttConnect HAS e).
Proof.
  unfold onMqttConnect.
  pose proof (subscribeToCommandTopic_quiet HAS) as Hs.
  pose proof (publishBirth_quiet HAS e) as Hp.
  repeat first [quiet_step | apply Hs | apply Hp].
Qed.

Lemma onAsyncConnect_quiet (HAS : bool) (e : Env) (sp : bool) :
  emits_only not_lifecycle (onAsyncConnect HAS e sp).
Proof.
  unfold onAsyncConnect.
  pose proof (subscribeToCommandTopic_quiet HAS) as Hs.
  pose proof (publishBirth_quiet HAS e) as Hp.
  repeat first [quiet_step | apply Hs | apply Hp].
Qed.

Lemma attachTo_pubsub_quiet (HAS : bool) (e : Env) (client : option PubSubClient) :
  emits_only not_lifecycle (attachTo_pubsub HAS e client).
Proof.
  unfold attachTo_pubsub.
  pose proof (buildTopics_quiet e) as Hb.
  pose proof (subscribeToCommandTopic_quiet HAS) as Hs.
  pose proof (publishBirth_quiet HAS e) as Hp.
  repeat first [quiet_step | apply Hb | apply Hs | apply Hp].
Qed.

Lemma onAsyncMessage_quiet (HAS : bool) (e : Env) (topic : string)
    (payload : list byte) (len index total : nat) :
  emits_only not_lifecycle (onAsyncMessage HAS e topic payload len index total).
Proof.
  unfold onAsyncMessage.
  pose proof (handleMessage_quiet HAS e topic payload len) as Hh.
  repeat first [quiet_step | apply Hh].
Qed.

(** A call other than [begin], on a transport in integration mode, makes no
    call that creates, connects, disconnects or deletes a client. *)
Lemma exec_quiet (HAS : bool) (e : Env) (c : Call) (this : MqttTransport) :
  standaloneMode_ this = false -> is_begin c = false ->
  forallb not_lifecycle (trace (exec HAS e c this)) = true.
Proof.
  intros Hm Hb.
  destruct c; try discriminate Hb; cbn [exec]; unfold discard.
  - apply attachTo_async_quiet.
  - apply attachTo_pubsub_quiet.
  - rewrite poll_eq, Hm. reflexivity.
  - apply onAsyncConnect_quiet.
  - reflexivity.
  - apply onAsyncMessage_quiet.
  - apply onMqttConnect_quiet.
  - apply emits_only_bind; [apply handleMessage_quiet | intros; apply emits_only_ret].
  - apply emits_only_bind; [|intros; apply emits_only_ret].
    unfold send. apply emits_only_bind; [apply emits_only_get|].
    intros. apply mqttPublish_quiet.
  - apply emits_only_bind; [|intros; apply emits_only_ret].
    unfold broadcast. apply emits_only_bind; [apply emits_only_get|].
    intros. apply mqttPublish_quiet.
  - apply emits_only_bind; [apply subscribe_quiet | intros; apply emits_only_ret].
  - apply emits_only_bind; [|intros; apply emits_only_ret].
    unfold publish. apply mqttPublish_quiet.
  - reflexivity.
Qed.

(** X23. In integration mode the transport never drives the life cycle of
    the host's client: as long as [begin] is not called, no sequence of calls
    on a transport in integration mode (attachments, polls, connect and
    message notifications, outbound operations) creates, connects,
    disconnects or deletes a client, and the transport stays in integration
    mode. *)
Theorem integration_never_drives_client (HAS : bool) (calls : list (Env * Call))
    (this : MqttTransport) :
  standaloneMode_ this = false ->
  forallb (fun ec => negb (is_begin (snd ec))) calls = true ->
  forallb not_lifecycle (trace (run HAS calls this)) = true /\
  standaloneMode_ (state_of (run HAS calls this)) = false.
Proof.
  revert this. induction calls as [|[e c] rest IH]; intros this Hm Hq.
  - split; [reflexivity | exact Hm].
  - cbn [forallb snd] in Hq. apply andb_true_iff in Hq. destruct Hq as [Hc Hrest].
    apply negb_true_iff in Hc.
    assert (Hm' : standaloneMode_ (state_of (exec HAS e c this)) = false).
    { destruct (exec_mode HAS e c this) as (Hmode & _). rewrite Hmode, Hm.
      destruct c; try discriminate Hc; try reflexivity.
      cbn [mode_after]. destruct HAS; reflexivity. }
    destruct (IH (state_of (exec HAS e c this)) Hm' Hrest) as [IHt IHm].
    rewrite run_cons. split; [|exact IHm].
    cbn [run]. rewrite trace_bind, forallb_app.
    rewrite (exec_quiet HAS e c this Hm Hc). exact IHt.
Qed.

Lemma integration_never_drives_client_witness :
  let calls := [(example_env 0 false, CallAttachAsync 9);
                (example_env 6000 false, CallPoll);
                (example_env 6001 true, CallOnMqttConnect);
                (example_env 6002 true,
                 CallHandleMessage "espmole/DEADBEEF001A/cmd"
                   (list_byte_of_string "ping") 4);
                (example_env 90000 false, CallPoll);
                (example_env 90001 false, CallSend PEER_MQTT (list_byte_of_string "ok") 2)] in
  forallb not_lifecycle (trace (run true calls (construct (Some 1)))) = true /\
  standaloneMode_ (state_of (run true calls (construct (Some 1)))) = false.
Proof.
  intros calls.
  apply (integration_never_drives_client true calls (construct (Some 1)));
    reflexivity.
Defined.

(** ** Who sees an inbound message *)

Lemma processCommand_trace (HAS : bool) (e : Env) (payload : list byte) (len : nat)
    (this : MqttTransport) :
  trace (processCommand HAS e payload len this) =
  match dispatcher_ this with
  | None => []
  | Some d =>
      DispatcherIngest d PEER_MQTT payload len RESPONSE_BUFFER_SIZE ::
      (let r := ingest e d PEER_MQTT payload len RESPONSE_BUFFER_SIZE in
       if (0 <? snd r)%nat
       then trace (mqttPublish HAS e (respTopic_ this) (fst r) (snd r)
                     (qos (config_ this)) false this)
       else [])
  end.
Proof.
  unfold processCommand. rewrite trace_bind. cbn [get trace result state_of fst snd app].
  destruct (dispatcher_ this) as [d|]; [|reflexivity].
  rewrite trace_bind. cbn [emit trace result state_of fst snd app].
  destruct (ingest e d PEER_MQTT payload len RESPONSE_BUFFER_SIZE) as [resp n].
  cbn [fst snd]. destruct (0 <? n)%nat; [|reflexivity].
  rewrite trace_bind. cbn [ret trace snd]. now rewrite app_nil_r.
Qed.

Lemma mqttPublish_trace_publishes (HAS : bool) (e : Env) (topic : string)
    (payload : list byte) (len : nat) (q : Z) (retain : bool) (this : MqttTransport) :
  forallb is_publish (trace (mqttPublish HAS e topic payload len q retain this)) = true.
Proof.
  rewrite mqttPublish_eq.
  destruct (live (asyncClient_ this) (async_connected e)); [reflexivity|].
  destruct (if HAS then live (pubSubClient_ this) (pubsub_connected e) else None);
    reflexivity.
Qed.

Lemma handleMessage_trace (HAS : bool) (e : Env) (topic : string)
    (payload : list byte) (len : nat) (this : MqttTransport) :
  trace (handleMessage HAS e topic payload len this) =
  match route this topic with
  | OwnCommand => trace (processCommand HAS e payload len this)
  | OwnOther => []
  | Foreign => match userCallback_ this with
               | Some cb => [UserCallback cb topic payload len]
               | None => []
               end
  end.
Proof.
  rewrite handleMessage_route. destruct (route this topic).
  - rewrite trace_bind. cbn [ret trace snd]. now rewrite app_nil_r.
  - reflexivity.
  - destruct (userCallback_ this); reflexivity.
Qed.

(** X24. The user callback sees exactly the foreign messages: [handleMessage]
    calls a callback with some arguments if and only if that callback is the
    registered one, the arguments are the topic, payload and length it was
    given, and the topic neither is the command topic nor begins with the
    base followed by the separator.  Nothing inside the namespace, not even
    the topic of another device, reaches the user callback. *)
Theorem user_callback_sees_exactly_foreign (HAS : bool) (e : Env) (this : MqttTransport)
    (topic : string) (payload : list byte) (len : nat)
    (cb : UserMessageCallback) (t : string) (p : list byte) (l : nat) :
  In (UserCallback cb t p l) (trace (handleMessage HAS e topic payload len this)) <->
  userCallback_ this = Some cb /\ t = topic /\ p = payload /\ l = len /\
  ~ begins_with (c_str (base_of (config_ this)) ++ "/") (c_str topic) /\
  c_str topic <> c_str (cmdTopic_ this).
Proof.
  rewrite handleMessage_trace. rewrite <- route_Foreign.
  destruct (route this topic) eqn:Hr.
  - split; [|intros (_ & _ & _ & _ & H); discriminate H].
    rewrite processCommand_trace. destruct (dispatcher_ this) as [d|]; [|intros []].
    intros [H|H]; [discriminate H|]. exfalso. cbv zeta in H.
    destruct (0 <? _)%nat; [|exact H].
    pose proof (mqttPublish_trace_publishes HAS e (respTopic_ this)
                  (fst (ingest e d PEER_MQTT payload len RESPONSE_BUFFER_SIZE))
                  (snd (ingest e d PEER_MQTT payload len RESPONSE_BUFFER_SIZE))
                  (qos (config_ this)) false this) as Hp.
    rewrite forallb_forall in Hp. specialize (Hp _ H). discriminate Hp.
  - split; [intros [] | intros (_ & _ & _ & _ & H); discriminate H].
  - destruct (userCallback_ this) as [cb'|].
    + split.
      * intros [H|[]]. injection H as -> -> -> ->. repeat split.
      * intros (H & -> & -> & -> & _). injection H as ->. now left.
    + split; [intros [] | intros (H & _); discriminate H].
Qed.

Lemma user_callback_sees_exactly_foreign_witness :
  In (UserCallback 3 "home/sensor/temp" (list_byte_of_string "21.5") 4)
     (trace (handleMessage true (example_env 0 true) "home/sensor/temp"
               (list_byte_of_string "21.5") 4
               (set_userCallback (Some 3) example_transport))).
Proof.
  apply (user_callback_sees_exactly_foreign true (example_env 0 true)
           (set_userCallback (Some 3) example_transport) "home/sensor/temp"
           (list_byte_of_string "21.5") 4 3 "home/sensor/temp"
           (list_byte_of_string "21.5") 4).
  repeat split; try discriminate.
  intros [r Hr]. discriminate Hr.
Defined.

(** X25. The dispatcher sees exactly the messages on the command topic:
    [handleMessage] calls [ingest] if and only if a dispatcher is set and the
    topic equals the command topic, and then with the payload and length it
    was given, always with the peer handle [PEER_MQTT] and a response capacity
    of [RESPONSE_BUFFER_SIZE]. *)
Theorem dispatcher_sees_exactly_commands (HAS : bool) (e : Env) (this : MqttTransport)
    (topic : string) (payload : list byte) (len : nat)
    (d : Dispatcher) (peer : PeerHandle) (p : list byte) (l cap : nat) :
  In (DispatcherIngest d peer p l cap)
     (trace (handleMessage HAS e topic payload len this)) <->
  dispatcher_ this = Some d /\ peer = PEER_MQTT /\ p = payload /\ l = len /\
  cap = RESPONSE_BUFFER_SIZE /\ c_str topic = c_str (cmdTopic_ this).
Proof.
  rewrite handleMessage_trace. rewrite <- route_OwnCommand.
  destruct (route this topic) eqn:Hr.
  - rewrite processCommand_trace. destruct (dispatcher_ this) as [d'|].
    + split.
      * intros [H|H]; [injection H as -> -> -> -> ->; repeat split|].
        exfalso. cbv zeta in H. destruct (0 <? _)%nat; [|exact H].
        pose proof (mqttPublish_trace_publishes HAS e (respTopic_ this)
                      (fst (ingest e d' PEER_MQTT payload len RESPONSE_BUFFER_SIZE))
                      (snd (ingest e d' PEER_MQTT payload len RESPONSE_BUFFER_SIZE))
                      (qos (config_ this)) false this) as Hp.
        rewrite forallb_forall in Hp. specialize (Hp _ H). discriminate Hp.
      * intros (H & -> & -> & -> & -> & _). injection H as ->. now left.
    + split; [intros [] | intros (H & _); discriminate H].
  - split; [intros [] | intros (_ & _ & _ & _ & _ & H); discriminate H].
  - split; [|intros (_ & _ & _ & _ & _ & H); discriminate H].
    destruct (userCallback_ this); [intros [H|[]]; discriminate H | intros []].
Qed.

Lemma dispatcher_sees_exactly_commands_witness :
  In (DispatcherIngest 1 PEER_MQTT (list_byte_of_string "ping") 4 256)
     (trace (handleMessage true (example_env 0 true) "espmole/test123/cmd"
               (list_byte_of_string "ping") 4 example_transport)).
Proof.
  apply (dispatcher_sees_exactly_commands true (example_env 0 true) example_transport
           "espmole/test123/cmd" (list_byte_of_string "ping") 4
           1 PEER_MQTT (list_byte_of_string "ping") 4 256).
  repeat split.
Defined.
